(** * Baasix MCP server: request-dispatch core

    A shallow embedding of the configuration loader ([baasix/config.js]) and
    of the server module ([baasix/index.js]): the token lifecycle
    ([getAuthToken]), the HTTP proxy ([baasixRequest]), the tool handlers and
    the [CallTool] dispatcher.

    The mutable module variables [authToken] and [authExpiry] are fields of an
    explicit state that every asynchronous function threads; the backend, the
    clock and the JavaScript built-ins are interfaces ([Backend],
    [JsRuntime]).  One invocation is modelled as running to completion:
    interleaving of several in-flight invocations is outside the model. *)

From Stdlib Require Import ZArith NArith List String Ascii.
From stdpp Require Import base option list strings pretty gmap fin_maps.

Local Open Scope string_scope.
Local Open Scope list_scope.

(** ** JavaScript values *)

(** The values that travel through tool arguments, request bodies and
    response bodies.  [VUndefined] is what reading a missing property
    gives. *)
Unset Elimination Schemes.
Inductive JsValue : Type :=
| VUndefined
| VNull
| VBool (b : bool)
| VNum (n : Z)
| VStr (s : string)
| VArr (items : list JsValue)
| VObj (fields : list (string * JsValue)).
Set Elimination Schemes.

(** Truthiness of a string: every string but the empty one. *)
Definition truthy_string (s : string) : bool :=
  negb (String.eqb s EmptyString).

(** Truthiness of a variable that holds a string or [undefined]/[null]. *)
Definition truthy (o : option string) : bool :=
  match o with
  | Some s => truthy_string s
  | None => false
  end.

(** Truthiness of a timestamp variable: [null] and [0] are falsy. *)
Definition truthy_time (o : option N) : bool :=
  match o with
  | Some t => negb (N.eqb t 0)
  | None => false
  end.

(** Truthiness of an arbitrary value. *)
Definition js_truthy (v : JsValue) : bool :=
  match v with
  | VUndefined | VNull => false
  | VBool b => b
  | VNum n => negb (Z.eqb n 0)
  | VStr s => truthy_string s
  | VArr _ | VObj _ => true
  end.

(** [a || b] on strings that may be undefined. *)
Definition or_else (a : option string) (b : string) : string :=
  match a with
  | Some s => if truthy_string s then s else b
  | None => b
  end.

(** ** config.js *)

Module ConfigJs.

Definition DEFAULT_CONFIG : gmap string string :=
  <["BAASIX_URL" := "http://localhost:8056"]>
    (<["BAASIX_EMAIL" := "admin@baasix.com"]>
       (<["BAASIX_PASSWORD" := "admin@123"]> ∅)).

(** The [options] argument of [loadEnvironmentConfig]. *)
Record LoadOptions : Type := {
  envPath : option string;
  useDefaults : bool;
  processEnv : bool
}.

(** [options = {}]: every field takes its default. *)
Definition no_options : LoadOptions :=
  {| envPath := None; useDefaults := true; processEnv := true |}.

(** What the loader reads from its host: whether [.env] exists in the
    package root, what [dotenv] parsed from the chosen file ([None] when
    [result.parsed] is missing), and [process.env].  [dotenv] also copies
    parsed keys that [process.env] lacks into it; step 3 below then finds
    the value step 2 already stored, so that copy is not represented. *)
Record Host : Type := {
  env_file_exists : bool;
  dotenv_parsed : option (gmap string string);
  process_env : gmap string string
}.

Definition envVars : list string :=
  ["BAASIX_URL"; "BAASIX_AUTH_TOKEN"; "BAASIX_EMAIL"; "BAASIX_PASSWORD"].

(** [{ ...a, ...b }]: the keys of [b] win. *)
Definition spread (a b : gmap string string) : gmap string string := b ∪ a.

(** One round of the [envVars.forEach] callback. *)
Definition override_from_env (env : gmap string string)
    (config : gmap string string) (key : string) : gmap string string :=
  if truthy (env !! key) then
    match env !! key with
    | Some v => <[key := v]> config
    | None => config
    end
  else config.

Definition loadEnvironmentConfig (options : LoadOptions) (h : Host)
    : gmap string string :=
  let config := if useDefaults options then spread ∅ DEFAULT_CONFIG else ∅ in
  let config :=
    if truthy (envPath options) || env_file_exists h then
      match dotenv_parsed h with
      | Some parsed => spread config parsed
      | None => config
      end
    else config in
  if processEnv options then
    foldl (override_from_env (process_env h)) config envVars
  else config.

Record Validation : Type := {
  errors : list string;
  warnings : list string;
  isValid : bool
}.

Definition newline : string := String (ascii_of_nat 10) EmptyString.

(** [Array.prototype.join]. *)
Fixpoint join (sep : string) (l : list string) : string :=
  match l with
  | [] => EmptyString
  | [x] => x
  | x :: rest => x +:+ sep +:+ join sep rest
  end.

Section Validate.

(** Whether [new URL(s)] returns rather than throws. *)
Variable url_parses : string → bool.

Definition validateConfig (config : gmap string string) : Validation :=
  let errors0 :=
    if truthy (config !! "BAASIX_URL") then []
    else ["BAASIX_URL is required"] in
  let hasToken := truthy (config !! "BAASIX_AUTH_TOKEN") in
  let hasCredentials :=
    truthy (config !! "BAASIX_EMAIL")
    && truthy (config !! "BAASIX_PASSWORD") in
  let errors1 :=
    if negb hasToken && negb hasCredentials then
      errors0 ++ ["Either BAASIX_AUTH_TOKEN or both BAASIX_EMAIL and BAASIX_PASSWORD must be provided"]
    else errors0 in
  let warnings1 :=
    if hasToken && hasCredentials then
      ["Both token and credentials provided - token will take priority"]
    else [] in
  let errors2 :=
    match config !! "BAASIX_URL" with
    | Some u =>
        if truthy_string u then
          if url_parses u then errors1
          else errors1 ++ ["BAASIX_URL must be a valid URL"]
        else errors1
    | None => errors1
    end in
  {| errors := errors2;
     warnings := warnings1;
     isValid := Nat.eqb (length errors2) 0 |}.

(** [createConfig]: the thrown [Error]'s message on the left, the
    configuration on the right (the warnings go to the console). *)
Definition createConfig (options : LoadOptions) (h : Host)
    : string + gmap string string :=
  let config := loadEnvironmentConfig options h in
  let validation := validateConfig config in
  if negb (isValid validation) then
    inl ("Configuration validation failed:" +:+ newline
         +:+ join newline (errors validation))
  else inr config.

(** The default export. *)
Definition getConfig (options : LoadOptions) (h : Host)
    : string + gmap string string :=
  createConfig options h.

End Validate.

End ConfigJs.

(** ** index.js: configuration, errors, backend *)

(** The four constants the server module computes from the loaded
    configuration. *)
Record Config : Type := {
  BAASIX_URL : string;
  BAASIX_AUTH_TOKEN : option string;
  BAASIX_EMAIL : option string;
  BAASIX_PASSWORD : option string
}.

Definition module_config (config : gmap string string) : Config :=
  {| BAASIX_URL := or_else (config !! "BAASIX_URL") "http://localhost:8056";
     BAASIX_AUTH_TOKEN := config !! "BAASIX_AUTH_TOKEN";
     BAASIX_EMAIL := config !! "BAASIX_EMAIL";
     BAASIX_PASSWORD := config !! "BAASIX_PASSWORD" |}.

(** What the module's top level does when it is imported:
    [const config = loadEnvironmentConfig()]. *)
Definition startup (h : ConfigJs.Host) : Config :=
  module_config (ConfigJs.loadEnvironmentConfig ConfigJs.no_options h).

(** Modelled from the spec: the [ErrorCode] enumeration of the protocol SDK,
    which is imported by the server module and not part of the sources; the
    spec lists the codes of a structured failure as [MethodNotFound],
    [InvalidParams] and [InternalError]. *)
Inductive ErrorCode : Type :=
| MethodNotFound
| InvalidParams
| InternalError.

(** The values the code throws and catches. *)
Inductive Exn : Type :=
| JsError (message : string)
    (* [new Error(message)], and the TypeError and RangeError of built-ins *)
| AxiosError (status : option Z) (data_message : option string)
             (message : string)
    (* a rejected axios call: [error.response?.status],
       [error.response?.data?.message], [error.message] *)
| McpError (code : ErrorCode) (message : string).

Definition response_status (e : Exn) : option Z :=
  match e with
  | AxiosError status _ _ => status
  | _ => None
  end.

Definition error_message (e : Exn) : string :=
  match e with
  | JsError m => m
  | AxiosError _ _ m => m
  | McpError _ m => m
  end.

(** [error.response?.data?.message || error.message]. *)
Definition describe (e : Exn) : string :=
  match e with
  | AxiosError _ data_message m => or_else data_message m
  | _ => error_message e
  end.

Definition status_is (e : Exn) (code : Z) : bool :=
  match response_status e with
  | Some s => Z.eqb s code
  | None => false
  end.

(** The three error shapes of the spec's taxonomy, as the code builds them:
    plain [Error]s told apart by their message. *)
Definition no_auth_message : string :=
  "No authentication method available. Please provide BAASIX_AUTH_TOKEN or BAASIX_EMAIL/BAASIX_PASSWORD".

Definition AuthenticationFailed (upstream : string) : Exn :=
  JsError ("Authentication failed: " +:+ upstream).

Definition NoAuthenticationMethod : Exn := JsError no_auth_message.

Definition ApiError (upstream : string) : Exn :=
  JsError ("Baasix API Error: " +:+ upstream).

Definition is_AuthenticationError (e : Exn) : Prop :=
  e = NoAuthenticationMethod ∨ ∃ upstream, e = AuthenticationFailed upstream.

(** The second argument of [baasixRequest]; [{}] is [no_request_options]. *)
Record Options : Type := {
  opt_method : option string;
  opt_data : JsValue;
  opt_headers : gmap string string
}.

Definition no_request_options : Options :=
  {| opt_method := None; opt_data := VUndefined; opt_headers := ∅ |}.

(** The request configuration handed to axios. *)
Record AxiosConfig : Type := {
  baseURL : string;
  method : option string;
  data : JsValue;
  headers : gmap string string
}.

(** An outbound HTTP call: the login exchange of [getAuthToken], or a
    proxied request of [baasixRequest]. *)
Inductive Call : Type :=
| LoginCall (url : string) (email password : option string)
| ApiCall (endpoint : string) (config : AxiosConfig).

Definition is_login (c : Call) : bool :=
  match c with LoginCall _ _ _ => true | ApiCall _ _ => false end.

Definition is_api (c : Call) : bool :=
  match c with LoginCall _ _ _ => false | ApiCall _ _ => true end.

Definition is_api_to (endpoint : string) (c : Call) : bool :=
  match c with
  | LoginCall _ _ _ => false
  | ApiCall e _ => String.eqb e endpoint
  end.

(** How a rejected call looks to the code that catches it. *)
Record Rejection : Type := {
  rej_status : option Z;
  rej_data_message : option string;
  rej_message : string
}.

Definition reject (r : Rejection) : Exn :=
  AxiosError (rej_status r) (rej_data_message r) (rej_message r).

(** The world outside the process: the backend behind axios and the clock.
    [axios_post_login] answers [axios.post(url, {email, password})] with
    [response.data.token] (absent as [None]) or a rejection; a body from
    which [.token] cannot be read is a rejection whose message is that of
    the TypeError.  [Date_now] is in milliseconds since the epoch. *)
Class Backend : Type := {
  World : Type;
  axios_post_login :
    string → option string → option string → World →
    (Rejection + option string) * World;
  axios_request :
    string → AxiosConfig → World → (Rejection + JsValue) * World;
  Date_now : World → N * World
}.

(** ** The state of the process and the monad of asynchronous functions *)

(** The module variables [authToken] and [authExpiry], the outside world, and
    the outbound calls made so far, oldest first. *)
Record State `{Backend} : Type := mkState {
  authToken : option string;
  authExpiry : option N;
  world : World;
  calls : list Call
}.

(** A fresh process: [let authToken = null; let authExpiry = null]. *)
Definition fresh `{Backend} (w : World) : State :=
  {| authToken := None; authExpiry := None; world := w; calls := [] |}.

(** An asynchronous function: from a state to a thrown value or a result,
    and the state it leaves. *)
Definition M `{Backend} (A : Type) : Type := State → (Exn + A) * State.

Section Monad.
Context `{Backend}.

#[export] Instance M_ret : MRet M := λ A (a : A) st, (inr a, st).

#[export] Instance M_bind : MBind M := λ A B (f : A → M B) (m : M A) st,
  match m st with
  | (inr a, st') => f a st'
  | (inl e, st') => (inl e, st')
  end.

Definition throw {A : Type} (e : Exn) : M A := λ st, (inl e, st).

(** [try { body } catch (error) { handler }]. *)
Definition try_catch {A : Type} (body : M A) (handler : Exn → M A) : M A :=
  λ st,
    match body st with
    | (inr a, st') => (inr a, st')
    | (inl e, st') => handler e st'
    end.

Definition read_authToken : M (option string) := λ st, (inr (authToken st), st).

Definition read_authExpiry : M (option N) := λ st, (inr (authExpiry st), st).

Definition write_authToken (v : option string) : M unit := λ st,
  (inr tt, {| authToken := v; authExpiry := authExpiry st;
              world := world st; calls := calls st |}).

Definition write_authExpiry (v : option N) : M unit := λ st,
  (inr tt, {| authToken := authToken st; authExpiry := v;
              world := world st; calls := calls st |}).

(** [Date.now()]. *)
Definition now : M N := λ st,
  let '(t, w) := Date_now (world st) in
  (inr t, {| authToken := authToken st; authExpiry := authExpiry st;
             world := w; calls := calls st |}).

(** [await axios.post(url, { email, password })], giving
    [response.data.token]. *)
Definition axios_post (url : string) (email password : option string)
    : M (option string) := λ st,
  let '(r, w) := axios_post_login url email password (world st) in
  let st' := {| authToken := authToken st; authExpiry := authExpiry st;
                world := w;
                calls := calls st ++ [LoginCall url email password] |} in
  match r with
  | inr token => (inr token, st')
  | inl rejection => (inl (reject rejection), st')
  end.

(** [await axios(endpoint, config)], giving [response.data]. *)
Definition axios (endpoint : string) (config : AxiosConfig) : M JsValue :=
  λ st,
  let '(r, w) := axios_request endpoint config (world st) in
  let st' := {| authToken := authToken st; authExpiry := authExpiry st;
                world := w;
                calls := calls st ++ [ApiCall endpoint config] |} in
  match r with
  | inr data => (inr data, st')
  | inl rejection => (inl (reject rejection), st')
  end.

End Monad.

(** ** getAuthToken and baasixRequest *)

Definition one_hour : N := 60 * 60 * 1000.

Definition bearer (token : option string) : string :=
  "Bearer " +:+ default "undefined" token.

Section Auth.
Context `{Backend} (cfg : Config).

(** [authToken && authExpiry && Date.now() < authExpiry]; the clock is
    read only when both variables are truthy. *)
Definition cached_token_valid : M bool :=
  tok ← read_authToken;
  exp ← read_authExpiry;
  if truthy tok && truthy_time exp then
    t ← now;
    mret (N.ltb t (default 0%N exp))
  else mret false.

Definition getAuthToken : M (option string) :=
  (* Priority 1: Use provided token if available *)
  if truthy (BAASIX_AUTH_TOKEN cfg) then mret (BAASIX_AUTH_TOKEN cfg)
  else
    (* Priority 2: Check if current token is still valid *)
    valid ← cached_token_valid;
    if (valid : bool) then read_authToken
    else
      (* Priority 3: Auto-authenticate using email/password *)
      if truthy (BAASIX_EMAIL cfg) && truthy (BAASIX_PASSWORD cfg) then
        try_catch
          (token ← axios_post (BAASIX_URL cfg +:+ "/auth/login")
                     (BAASIX_EMAIL cfg) (BAASIX_PASSWORD cfg);
           write_authToken token;;
           t ← now;
           write_authExpiry (Some (t + one_hour)%N);;
           read_authToken)
          (λ error : Exn, throw (AuthenticationFailed (describe error)))
      else throw NoAuthenticationMethod.

(** The [config] object of [baasixRequest]: the later spread wins. *)
Definition request_config (token : option string) (options : Options)
    : AxiosConfig :=
  {| baseURL := BAASIX_URL cfg;
     method := opt_method options;
     data := opt_data options;
     headers :=
       opt_headers options
       ∪ (if truthy token
          then <["Authorization" := bearer token]> ∅ else ∅)
       ∪ <["Content-Type" := "application/json"]> ∅ |}.

(** [config.headers.Authorization = `Bearer ${newToken}`]. *)
Definition set_authorization (newToken : option string)
    (config : AxiosConfig) : AxiosConfig :=
  {| baseURL := baseURL config;
     method := method config;
     data := data config;
     headers := <["Authorization" := bearer newToken]> (headers config) |}.

Definition baasixRequest (endpoint : string) (options : Options)
    : M JsValue :=
  token ← getAuthToken;
  let config := request_config token options in
  try_catch (axios endpoint config)
    (λ error : Exn,
       tok ← read_authToken;
       (* If auth error and using auto-login, clear token and retry once *)
       retried ←
         (if status_is error 401 && truthy tok
             && negb (truthy (BAASIX_AUTH_TOKEN cfg))
          then
            write_authToken None;;
            write_authExpiry None;;
            try_catch
              (newToken ← getAuthToken;
               if truthy (newToken : option string) then
                 data ← axios endpoint (set_authorization newToken config);
                 mret (Some data)
               else mret None)
              (λ retryError : Exn, throw (ApiError (describe retryError)))
          else mret None);
       match (retried : option JsValue) with
       | Some data => mret data
       | None => throw (ApiError (describe error))
       end).

End Auth.

(** ** Tool arguments and the JavaScript built-ins the handlers use *)

(** [request.params.arguments]: a JSON object, its properties in order, or
    [undefined] ([None]). *)
Definition Args : Type := list (string * JsValue).

Fixpoint assoc {A : Type} (key : string) (l : list (string * A)) : option A :=
  match l with
  | [] => None
  | (k, v) :: rest => if String.eqb k key then Some v else assoc key rest
  end.

(** Reading a property: a missing one is [undefined]. *)
Definition prop (a : Args) (key : string) : JsValue :=
  default VUndefined (assoc key a).

(** A destructuring default, [{ key = d }]: used when the property is
    [undefined]. *)
Definition prop_default (a : Args) (key : string) (d : JsValue) : JsValue :=
  match prop a key with
  | VUndefined => d
  | v => v
  end.

(** The rest of a destructuring pattern, [{ k1, ..., kn, ...rest }]. *)
Definition rest_props (a : Args) (named : list string) : Args :=
  filter (λ kv, kv.1 ∉ named) a.

Definition is_undefined (v : JsValue) : bool :=
  match v with VUndefined => true | _ => false end.

(** The built-ins whose results the handlers only pass on. *)
Class JsRuntime : Type := {
  (** [String(v)], as in a template literal and in [URLSearchParams.append] *)
  js_String : JsValue → string;
  (** [JSON.stringify(v)] *)
  JSON_stringify : JsValue → string;
  (** [JSON.stringify(v, null, 2)] *)
  JSON_stringify_pretty : JsValue → string;
  (** the string form of a [URLSearchParams] with these entries *)
  URLSearchParams_toString : list (string * string) → string;
  (** [items.join(sep)] on an array *)
  Array_join : list JsValue → string → string;
  (** [new Date(t).toISOString()] for a time value in range *)
  iso_format : N → string;
  (** the message of the TypeError an ill-typed access raises *)
  type_error : string → string;
  process_uptime : JsValue;
  process_memoryUsage : JsValue;
  process_version : string
}.

(** Synchronous code that may throw: the thrown [Error]'s message on the
    left. *)
#[export] Instance sum_ret : MRet (sum string) := λ A (a : A), inr a.

#[export] Instance sum_bind : MBind (sum string) :=
  λ A B (f : A → string + B) (m : string + A),
    match m with
    | inr a => f a
    | inl e => inl e
    end.

Section Builtins.
Context `{JsRuntime}.

(** [const { ... } = args]. *)
Definition destructure (args : option Args) : string + Args :=
  match args with
  | Some a => inr a
  | None => inl (type_error "args")
  end.

(** [v.toString()]. *)
Definition toString_method (what : string) (v : JsValue) : string + string :=
  match v with
  | VUndefined | VNull => inl (type_error what)
  | _ => inr (js_String v)
  end.

(** [v.join(',')]. *)
Definition join_method (what : string) (v : JsValue) : string + string :=
  match v with
  | VArr items => inr (Array_join items ",")
  | _ => inl (type_error what)
  end.

(** The largest time value of a valid [Date]. *)
Definition max_time : N := 8640000000000000.

(** [new Date(t).toISOString()]. *)
Definition toISOString (t : N) : string + string :=
  if N.leb t max_time then inr (iso_format t)
  else inl "Invalid time value".

End Builtins.

(** ** Tool results *)

Record Content : Type := { type : string; text : string }.

Record ToolResult : Type := { content : list Content }.

(** [{ content: [{ type: 'text', text }] }]. *)
Definition text_result (body : string) : ToolResult :=
  {| content := [ {| type := "text"; text := body |} ] |}.

(** ** The requests the handlers build *)

(** The two arguments of a [baasixRequest] call. *)
Definition Request : Type := string * Options.

Definition fetch (endpoint : string) : Request :=
  (endpoint, no_request_options).

Definition send (verb endpoint : string) (body : JsValue) : Request :=
  (endpoint, {| opt_method := Some verb; opt_data := body; opt_headers := ∅ |}).

(** [if (c) params.append(key, value)]. *)
Definition append_if (c : bool) (key value : string) : list (string * string) :=
  if c then [(key, value)] else [].

(** An object literal in shorthand, [{ k1, ..., kn }], over the properties of
    the arguments. *)
Definition pick (a : Args) (keys : list string) : list (string * JsValue) :=
  map (λ k, (k, prop a k)) keys.

Section Requests.
Context `{JsRuntime}.

Definition query (path : string) (params : list (string * string)) : string :=
  path +:+ "?" +:+ URLSearchParams_toString params.

(** [page] and [limit] with the defaults 1 and 10, appended in this order
    after [before]. *)
Definition paged (a : Args) (before : list (string * string))
    : string + list (string * string) :=
  page ← toString_method "page.toString" (prop_default a "page" (VNum 1));
  limit ← toString_method "limit.toString" (prop_default a "limit" (VNum 10));
  mret (before ++ [("page", page); ("limit", limit)]).

Definition handleListSchemas_request (args : option Args) : string + Request :=
  a ← destructure args;
  let search := prop a "search" in
  let page := prop a "page" in
  let limit := prop a "limit" in
  let sort := prop_default a "sort" (VStr "collectionName:asc") in
  p ← (if is_undefined page then mret []
       else s ← toString_method "page.toString" page; mret [("page", s)]);
  l ← (if is_undefined limit then mret []
       else s ← toString_method "limit.toString" limit; mret [("limit", s)]);
  mret (fetch (query "/schemas"
          (append_if (js_truthy search) "search" (js_String search)
           ++ p ++ l ++ [("sort", js_String sort)]))).

Definition handleGetSchema_request (args : option Args) : string + Request :=
  a ← destructure args;
  mret (fetch ("/schemas/" +:+ js_String (prop a "collection"))).

Definition handleCreateSchema_request (args : option Args) : string + Request :=
  a ← destructure args;
  mret (send "POST" ("/schemas/" +:+ js_String (prop a "collection"))
             (prop a "schema")).

Definition handleUpdateSchema_request (args : option Args) : string + Request :=
  a ← destructure args;
  mret (send "PUT" ("/schemas/" +:+ js_String (prop a "collection"))
             (prop a "schema")).

Definition handleDeleteSchema_request (args : option Args) : string + Request :=
  a ← destructure args;
  mret (send "DELETE" ("/schemas/" +:+ js_String (prop a "collection"))
             VUndefined).

Definition handleAddIndex_request (args : option Args) : string + Request :=
  a ← destructure args;
  mret (send "POST"
             ("/schemas/" +:+ js_String (prop a "collection") +:+ "/indexes")
             (prop a "indexDefinition")).

Definition handleRemoveIndex_request (args : option Args) : string + Request :=
  a ← destructure args;
  mret (send "DELETE"
             ("/schemas/" +:+ js_String (prop a "collection") +:+ "/indexes/"
              +:+ js_String (prop a "indexName"))
             VUndefined).

Definition handleCreateRelationship_request (args : option Args)
    : string + Request :=
  a ← destructure args;
  mret (send "POST"
             ("/schemas/" +:+ js_String (prop a "sourceCollection")
              +:+ "/relationships")
             (prop a "relationshipData")).

Definition relationship_path (a : Args) : string :=
  "/schemas/" +:+ js_String (prop a "sourceCollection") +:+ "/relationships/"
  +:+ js_String (prop a "fieldName").

Definition handleUpdateRelationship_request (args : option Args)
    : string + Request :=
  a ← destructure args;
  mret (send "PATCH" (relationship_path a) (prop a "updateData")).

Definition handleDeleteRelationship_request (args : option Args)
    : string + Request :=
  a ← destructure args;
  mret (send "DELETE" (relationship_path a) VUndefined).

Definition handleExportSchemas_request (args : option Args) : string + Request :=
  mret (fetch "/schemas-export").

Definition handleImportSchemas_request (args : option Args) : string + Request :=
  a ← destructure args;
  mret (send "POST" "/schemas-import" (prop a "schemas")).

Definition handleListItems_request (args : option Args) : string + Request :=
  a ← destructure args;
  let collection := prop a "collection" in
  let filter := prop a "filter" in
  let sort := prop a "sort" in
  params ← paged a
    (append_if (js_truthy filter) "filter" (JSON_stringify filter)
     ++ append_if (js_truthy sort) "sort" (js_String sort));
  mret (fetch (query ("/items/" +:+ js_String collection) params)).

Definition item_path (a : Args) : string :=
  "/items/" +:+ js_String (prop a "collection") +:+ "/"
  +:+ js_String (prop a "id").

Definition handleGetItem_request (args : option Args) : string + Request :=
  a ← destructure args;
  mret (fetch (item_path a)).

Definition handleCreateItem_request (args : option Args) : string + Request :=
  a ← destructure args;
  mret (send "POST" ("/items/" +:+ js_String (prop a "collection"))
             (prop a "data")).

Definition handleUpdateItem_request (args : option Args) : string + Request :=
  a ← destructure args;
  mret (send "PUT" (item_path a) (prop a "data")).

Definition handleDeleteItem_request (args : option Args) : string + Request :=
  a ← destructure args;
  mret (send "DELETE" (item_path a) VUndefined).

Definition handleListFiles_request (args : option Args) : string + Request :=
  a ← destructure args;
  let filter := prop a "filter" in
  params ← paged a
    (append_if (js_truthy filter) "filter" (JSON_stringify filter));
  mret (fetch (query "/files" params)).

Definition handleGetFileInfo_request (args : option Args) : string + Request :=
  a ← destructure args;
  mret (fetch ("/files/" +:+ js_String (prop a "id"))).

Definition handleDeleteFile_request (args : option Args) : string + Request :=
  a ← destructure args;
  mret (send "DELETE" ("/files/" +:+ js_String (prop a "id")) VUndefined).

Definition handleGenerateReport_request (args : option Args)
    : string + Request :=
  a ← destructure args;
  let groupBy := prop a "groupBy" in
  let filter := prop a "filter" in
  let dateRange := prop a "dateRange" in
  mret (fetch (query ("/reports/" +:+ js_String (prop a "collection"))
          (append_if (js_truthy groupBy) "groupBy" (js_String groupBy)
           ++ append_if (js_truthy filter) "filter" (JSON_stringify filter)
           ++ append_if (js_truthy dateRange) "dateRange"
                (JSON_stringify dateRange)))).

Definition handleGetStats_request (args : option Args) : string + Request :=
  a ← destructure args;
  let collections := prop a "collections" in
  let timeframe := prop a "timeframe" in
  mret (fetch (query "/reports/stats"
          (append_if (js_truthy collections) "collections"
             (JSON_stringify collections)
           ++ append_if (js_truthy timeframe) "timeframe"
                (js_String timeframe)))).

Definition handleListNotifications_request (args : option Args)
    : string + Request :=
  a ← destructure args;
  let seen := prop a "seen" in
  params ← paged a [];
  s ← (if is_undefined seen then mret []
       else s ← toString_method "seen.toString" seen; mret [("seen", s)]);
  mret (fetch (query "/notifications" (params ++ s))).

Definition handleSendNotification_request (args : option Args)
    : string + Request :=
  a ← destructure args;
  mret (send "POST" "/notifications"
          (VObj (pick a ["recipients"; "title"; "message"]
                 ++ [("type", prop_default a "type" (VStr "info"))]))).

Definition handleMarkNotificationSeen_request (args : option Args)
    : string + Request :=
  a ← destructure args;
  mret (send "PUT" ("/notifications/" +:+ js_String (prop a "id") +:+ "/seen")
             VUndefined).

Definition handleGetSettings_request (args : option Args) : string + Request :=
  a ← destructure args;
  let key := prop a "key" in
  mret (fetch (if js_truthy key then "/settings/" +:+ js_String key
               else "/settings")).

Definition handleUpdateSettings_request (args : option Args)
    : string + Request :=
  a ← destructure args;
  mret (send "PUT" "/settings" (prop a "settings")).

Definition handleListRoles_request (args : option Args) : string + Request :=
  mret (fetch "/permissions/roles").

Definition handleListPermissions_request (args : option Args)
    : string + Request :=
  a ← destructure args;
  let filter := prop a "filter" in
  let sort := prop a "sort" in
  params ← paged a
    (append_if (js_truthy filter) "filter" (JSON_stringify filter)
     ++ append_if (js_truthy sort) "sort" (js_String sort));
  mret (fetch (query "/permissions" params)).

Definition handleGetPermission_request (args : option Args)
    : string + Request :=
  a ← destructure args;
  mret (fetch ("/permissions/" +:+ js_String (prop a "id"))).

Definition handleGetPermissions_request (args : option Args)
    : string + Request :=
  a ← destructure args;
  mret (fetch ("/permissions/" +:+ js_String (prop a "role"))).

Definition permission_fields : list string :=
  ["role_Id"; "collection"; "action"; "fields"; "conditions";
   "defaultValues"; "relConditions"].

Definition handleCreatePermission_request (args : option Args)
    : string + Request :=
  a ← destructure args;
  mret (send "POST" "/permissions" (VObj (pick a permission_fields))).

Definition handleUpdatePermission_request (args : option Args)
    : string + Request :=
  a ← destructure args;
  mret (send "PATCH" ("/permissions/" +:+ js_String (prop a "id"))
             (VObj (pick a permission_fields))).

Definition handleDeletePermission_request (args : option Args)
    : string + Request :=
  a ← destructure args;
  mret (send "DELETE" ("/permissions/" +:+ js_String (prop a "id"))
             VUndefined).

Definition handleReloadPermissions_request (args : option Args)
    : string + Request :=
  mret (send "POST" "/permissions/reload" VUndefined).

Definition handleUpdatePermissions_request (args : option Args)
    : string + Request :=
  a ← destructure args;
  mret (send "PUT" ("/permissions/" +:+ js_String (prop a "role"))
             (prop a "permissions")).

Definition handleSortItems_request (args : option Args) : string + Request :=
  a ← destructure args;
  mret (send "POST" ("/utils/sort/" +:+ js_String (prop a "collection"))
             (VObj (pick a ["item"; "to"]))).

Definition register_fields : list string :=
  ["email"; "password"; "firstName"; "lastName"; "tenant"; "roleName";
   "inviteToken"; "authMode"].

Definition handleRegisterUser_request (args : option Args)
    : string + Request :=
  a ← destructure args;
  mret (send "POST" "/auth/register"
          (VObj (pick a register_fields ++ rest_props a register_fields))).

Definition handleLogin_request (args : option Args) : string + Request :=
  a ← destructure args;
  mret (send "POST" "/auth/login"
          (VObj (pick a ["email"; "password"; "tenant_Id"; "authMode"]))).

Definition handleSendInvite_request (args : option Args) : string + Request :=
  a ← destructure args;
  mret (send "POST" "/auth/invite"
          (VObj (pick a ["email"; "role_Id"; "tenant_Id"; "link"]))).

Definition handleVerifyInvite_request (args : option Args)
    : string + Request :=
  a ← destructure args;
  let link := prop a "link" in
  mret (fetch (query ("/auth/verify-invite/" +:+ js_String (prop a "token"))
                 (append_if (js_truthy link) "link" (js_String link)))).

Definition handleSendMagicLink_request (args : option Args)
    : string + Request :=
  a ← destructure args;
  mret (send "POST" "/auth/magiclink"
          (VObj (pick a ["email"; "link"; "mode"]))).

Definition handleGetUserTenants_request (args : option Args)
    : string + Request :=
  mret (fetch "/auth/tenants").

Definition handleSwitchTenant_request (args : option Args)
    : string + Request :=
  a ← destructure args;
  mret (send "POST" "/auth/switch-tenant" (VObj (pick a ["tenant_Id"]))).

Definition handleLogout_request (args : option Args) : string + Request :=
  mret (fetch "/auth/logout").

Definition handleGetCurrentUser_request (args : option Args)
    : string + Request :=
  a ← destructure args;
  let fields := prop a "fields" in
  params ← (if js_truthy fields then
              s ← join_method "fields.join" fields; mret [("fields", s)]
            else mret []);
  mret (fetch (query "/auth/me" params)).

End Requests.

(** ** The handlers *)

(** The handlers come in four shapes.  All but three destructure their
    arguments, build one request, await [baasixRequest] and wrap its result;
    they differ in the request only. *)
Inductive Handler : Type :=
| Proxy (request : option Args → string + Request)
| ServerInfo
| AuthStatus
| RefreshAuth.

Section Handlers.
Context `{Backend} `{JsRuntime} (cfg : Config).

(** Synchronous code inside an asynchronous function: what it throws is an
    [Error]. *)
Definition sync {A : Type} (r : string + A) : M A :=
  match r with
  | inr a => mret a
  | inl message => throw (JsError message)
  end.

Definition proxy (request : option Args → string + Request)
    (args : option Args) : M ToolResult :=
  req ← sync (request args);
  result ← baasixRequest cfg (req : Request).1 (req : Request).2;
  mret (text_result (JSON_stringify_pretty result)).

Definition handleGetSchema : option Args → M ToolResult :=
  proxy handleGetSchema_request.

Definition handleListItems : option Args → M ToolResult :=
  proxy handleListItems_request.

Definition configured_user : JsValue :=
  VStr (or_else (BAASIX_EMAIL cfg) "Not configured").

Definition handleAuthStatus (args : option Args) : M ToolResult :=
  try_catch
    (token ← getAuthToken cfg;
     expiry ← read_authExpiry;
     expires ← (if truthy_time expiry
                then sync (toISOString (default 0%N expiry))
                else mret "N/A");
     valid ← cached_token_valid;
     let status := VObj [
       ("auth_method",
        VStr (if truthy (BAASIX_AUTH_TOKEN cfg) then "Manual Token"
              else if truthy (BAASIX_EMAIL cfg) then "Auto-login"
              else "None"));
       ("configured_user", configured_user);
       ("manual_token_provided", VBool (truthy (BAASIX_AUTH_TOKEN cfg)));
       ("authenticated", VBool (truthy token));
       ("auto_login_expires", VStr expires);
       ("auto_login_valid", VBool valid)
     ] in
     mret (text_result (JSON_stringify_pretty status)))
    (λ error : Exn,
       mret (text_result (JSON_stringify_pretty (VObj [
         ("error", VStr (error_message error));
         ("auth_method", VStr "None");
         ("manual_token_provided", VBool (truthy (BAASIX_AUTH_TOKEN cfg)));
         ("configured_user", configured_user)
       ])))).

Definition handleRefreshAuth (args : option Args) : M ToolResult :=
  if truthy (BAASIX_AUTH_TOKEN cfg) then
    mret (text_result (JSON_stringify_pretty (VObj [
      ("message",
       VStr "Using manual token (BAASIX_AUTH_TOKEN), no refresh needed");
      ("auth_method", VStr "Manual Token")
    ])))
  else
    (* Clear current auto-login token to force refresh *)
    write_authToken None;;
    write_authExpiry None;;
    try_catch
      (token ← getAuthToken cfg;
       expiry ← read_authExpiry;
       expires ← (if truthy_time expiry
                  then sync (toISOString (default 0%N expiry))
                  else mret "Unknown");
       let result := VObj [
         ("success", VBool (truthy token));
         ("user", configured_user);
         ("token_received", VBool (truthy token));
         ("expires", VStr expires);
         ("auth_method", VStr "Auto-login")
       ] in
       mret (text_result (JSON_stringify_pretty result)))
      (λ error : Exn,
         mret (text_result (JSON_stringify_pretty (VObj [
           ("success", VBool false);
           ("error", VStr (error_message error));
           ("user", configured_user)
         ])))).

(** The [mcp_server] block of [handleServerInfo]; the timestamp is
    [new Date().toISOString()]. *)
Definition mcp_server_block : M JsValue :=
  t ← now;
  mret (VObj [
    ("name", VStr "baasix-mcp-server");
    ("version", VStr "1.0.0");
    ("timestamp", VStr (iso_format t));
    ("uptime", process_uptime);
    ("memory", process_memoryUsage);
    ("nodejs", VStr process_version);
    ("baasix_url", VStr (BAASIX_URL cfg))
  ]).

Definition handleServerInfo (args : option Args) : M ToolResult :=
  try_catch
    (info ← baasixRequest cfg "/utils/info" no_request_options;
     block ← mcp_server_block;
     mret (text_result (JSON_stringify_pretty (VObj [
       ("baasix_server", info); ("mcp_server", block)
     ]))))
    (λ error : Exn,
       block ← mcp_server_block;
       mret (text_result (JSON_stringify_pretty (VObj [
         ("error", VStr "Could not fetch Baasix server info");
         ("mcp_server", block)
       ])))).

Definition run_handler (h : Handler) (args : option Args) : M ToolResult :=
  match h with
  | Proxy request => proxy request args
  | ServerInfo => handleServerInfo args
  | AuthStatus => handleAuthStatus args
  | RefreshAuth => handleRefreshAuth args
  end.

End Handlers.
(** ** The tool catalog and the dispatcher *)

(** A descriptor of the [ListTools] answer: its name and the [required]
    list of its [inputSchema] (empty when the schema has none).  The
    descriptions and property tables are data that no code path reads. *)
Record ToolDescriptor : Type := {
  name : string;
  required : list string
}.

Definition tool (n : string) (r : list string) : ToolDescriptor :=
  {| name := n; required := r |}.

(** The [tools] array, in its order. *)
Definition tools : list ToolDescriptor := [
  tool "baasix_list_schemas" [];
  tool "baasix_get_schema" ["collection"];
  tool "baasix_create_schema" ["collection"; "schema"];
  tool "baasix_update_schema" ["collection"; "schema"];
  tool "baasix_delete_schema" ["collection"];
  tool "baasix_add_index" ["collection"; "indexDefinition"];
  tool "baasix_remove_index" ["collection"; "indexName"];
  tool "baasix_create_relationship" ["sourceCollection"; "relationshipData"];
  tool "baasix_update_relationship" ["sourceCollection"; "fieldName"; "updateData"];
  tool "baasix_delete_relationship" ["sourceCollection"; "fieldName"];
  tool "baasix_export_schemas" [];
  tool "baasix_import_schemas" ["schemas"];
  tool "baasix_list_items" ["collection"];
  tool "baasix_get_item" ["collection"; "id"];
  tool "baasix_create_item" ["collection"; "data"];
  tool "baasix_update_item" ["collection"; "id"; "data"];
  tool "baasix_delete_item" ["collection"; "id"];
  tool "baasix_list_files" [];
  tool "baasix_get_file_info" ["id"];
  tool "baasix_delete_file" ["id"];
  tool "baasix_auth_status" [];
  tool "baasix_refresh_auth" [];
  tool "baasix_generate_report" ["collection"];
  tool "baasix_collection_stats" [];
  tool "baasix_list_notifications" [];
  tool "baasix_send_notification" ["recipients"; "title"; "message"];
  tool "baasix_mark_notification_seen" ["id"];
  tool "baasix_get_settings" [];
  tool "baasix_update_settings" ["settings"];
  tool "baasix_list_roles" [];
  tool "baasix_list_permissions" [];
  tool "baasix_get_permission" ["id"];
  tool "baasix_get_permissions" ["role"];
  tool "baasix_create_permission" ["role_Id"; "collection"; "action"];
  tool "baasix_update_permission" ["id"];
  tool "baasix_delete_permission" ["id"];
  tool "baasix_reload_permissions" [];
  tool "baasix_update_permissions" ["role"; "permissions"];
  tool "baasix_server_info" [];
  tool "baasix_sort_items" ["collection"; "item"; "to"];
  tool "baasix_register_user" ["email"; "password"];
  tool "baasix_login" ["email"; "password"];
  tool "baasix_send_invite" ["email"; "role_Id"; "link"];
  tool "baasix_verify_invite" ["token"];
  tool "baasix_send_magic_link" ["email"];
  tool "baasix_get_user_tenants" [];
  tool "baasix_switch_tenant" ["tenant_Id"];
  tool "baasix_logout" [];
  tool "baasix_get_current_user" []
].

Section Dispatcher.
Context `{Backend} `{JsRuntime} (cfg : Config).

(** The [case] labels of the [switch], in its order, each with the
    handler it awaits. *)
Definition cases : list (string * Handler) := [
  ("baasix_list_schemas", Proxy handleListSchemas_request);
  ("baasix_get_schema", Proxy handleGetSchema_request);
  ("baasix_create_schema", Proxy handleCreateSchema_request);
  ("baasix_update_schema", Proxy handleUpdateSchema_request);
  ("baasix_delete_schema", Proxy handleDeleteSchema_request);
  ("baasix_add_index", Proxy handleAddIndex_request);
  ("baasix_remove_index", Proxy handleRemoveIndex_request);
  ("baasix_create_relationship", Proxy handleCreateRelationship_request);
  ("baasix_update_relationship", Proxy handleUpdateRelationship_request);
  ("baasix_delete_relationship", Proxy handleDeleteRelationship_request);
  ("baasix_export_schemas", Proxy handleExportSchemas_request);
  ("baasix_import_schemas", Proxy handleImportSchemas_request);
  ("baasix_list_items", Proxy handleListItems_request);
  ("baasix_get_item", Proxy handleGetItem_request);
  ("baasix_create_item", Proxy handleCreateItem_request);
  ("baasix_update_item", Proxy handleUpdateItem_request);
  ("baasix_delete_item", Proxy handleDeleteItem_request);
  ("baasix_list_files", Proxy handleListFiles_request);
  ("baasix_get_file_info", Proxy handleGetFileInfo_request);
  ("baasix_delete_file", Proxy handleDeleteFile_request);
  ("baasix_auth_status", AuthStatus);
  ("baasix_refresh_auth", RefreshAuth);
  ("baasix_generate_report", Proxy handleGenerateReport_request);
  ("baasix_collection_stats", Proxy handleGetStats_request);
  ("baasix_list_notifications", Proxy handleListNotifications_request);
  ("baasix_send_notification", Proxy handleSendNotification_request);
  ("baasix_mark_notification_seen", Proxy handleMarkNotificationSeen_request);
  ("baasix_get_settings", Proxy handleGetSettings_request);
  ("baasix_update_settings", Proxy handleUpdateSettings_request);
  ("baasix_list_roles", Proxy handleListRoles_request);
  ("baasix_list_permissions", Proxy handleListPermissions_request);
  ("baasix_get_permission", Proxy handleGetPermission_request);
  ("baasix_get_permissions", Proxy handleGetPermissions_request);
  ("baasix_create_permission", Proxy handleCreatePermission_request);
  ("baasix_update_permission", Proxy handleUpdatePermission_request);
  ("baasix_delete_permission", Proxy handleDeletePermission_request);
  ("baasix_reload_permissions", Proxy handleReloadPermissions_request);
  ("baasix_update_permissions", Proxy handleUpdatePermissions_request);
  ("baasix_server_info", ServerInfo);
  ("baasix_sort_items", Proxy handleSortItems_request);
  ("baasix_register_user", Proxy handleRegisterUser_request);
  ("baasix_login", Proxy handleLogin_request);
  ("baasix_send_invite", Proxy handleSendInvite_request);
  ("baasix_verify_invite", Proxy handleVerifyInvite_request);
  ("baasix_send_magic_link", Proxy handleSendMagicLink_request);
  ("baasix_get_user_tenants", Proxy handleGetUserTenants_request);
  ("baasix_switch_tenant", Proxy handleSwitchTenant_request);
  ("baasix_logout", Proxy handleLogout_request);
  ("baasix_get_current_user", Proxy handleGetCurrentUser_request)
].

(** [switch (name)]: the first matching label, or the [default] branch. *)
Definition lookup_handler (name : string) : option Handler :=
  assoc name cases.

(** The [CallToolRequestSchema] handler, given [request.params].  Errors
    that are not protocol errors are logged to the console (not
    represented) and wrapped. *)
Definition CallTool (name : string) (args : option Args) : M ToolResult :=
  try_catch
    (match lookup_handler name with
     | Some h => run_handler cfg h args
     | None => throw (McpError MethodNotFound ("Unknown tool: " +:+ name))
     end)
    (λ error : Exn,
       match error with
       | McpError _ _ => throw error
       | _ => throw (McpError InternalError
                       ("Tool execution failed: " +:+ error_message error))
       end).

End Dispatcher.


(** [lookup(name)] on the advertised catalog. *)
Definition registered (n : string) : bool :=
  bool_decide (n ∈ map name tools).

(** ** A scripted backend

    A backend that answers from two scripts, one for the login exchanges and
    one for the proxied requests, and fails with a network error once a
    script is used up; its clock stands still.  It instantiates the
    interfaces wherever a concrete run is computed. *)
Module Script.

Record scripted : Type := {
  logins : list (Rejection + option string);
  replies : list (Rejection + JsValue);
  clock : N
}.

Definition network_error : Rejection :=
  {| rej_status := None; rej_data_message := None;
     rej_message := "Network Error" |}.

(** A response with a status outside 2xx and a body [{ message }]. *)
Definition http_error (status : Z) (message : string) : Rejection :=
  {| rej_status := Some status; rej_data_message := Some message;
     rej_message := "Request failed" |}.

(** A stand-in for [new URL]: accepts what starts with a web scheme. *)
Definition looks_like_url (s : string) : bool :=
  String.prefix "http://" s || String.prefix "https://" s.

(** What axios throws before sending when the URL is not one. *)
Definition invalid_url : Rejection :=
  {| rej_status := None; rej_data_message := None;
     rej_message := "Invalid URL" |}.

Definition next_login (w : scripted) : (Rejection + option string) * scripted :=
  match logins w with
  | [] => (inl network_error, w)
  | r :: rest =>
      (r, {| logins := rest; replies := replies w; clock := clock w |})
  end.

Definition next_reply (w : scripted) : (Rejection + JsValue) * scripted :=
  match replies w with
  | [] => (inl network_error, w)
  | r :: rest =>
      (r, {| logins := logins w; replies := rest; clock := clock w |})
  end.

(** A call whose URL is not one is refused before anything is sent and
    consumes no scripted answer. *)
#[export] Instance backend : Backend := {|
  World := scripted;
  axios_post_login := λ url _ _ w,
    if looks_like_url url then next_login w else (inl invalid_url, w);
  axios_request := λ _ config w,
    if looks_like_url (baseURL config) then next_reply w
    else (inl invalid_url, w);
  Date_now := λ w, (clock w, w)
|}.

(** A runtime that converts the values the examples use: [String(v)] of
    scalars, with arrays taken as empty. *)
Definition to_string (v : JsValue) : string :=
  match v with
  | VUndefined => "undefined"
  | VNull => "null"
  | VBool true => "true"
  | VBool false => "false"
  | VNum n => pretty n
  | VStr s => s
  | VArr _ => EmptyString
  | VObj _ => "[object Object]"
  end.

Fixpoint encode_params (l : list (string * string)) : string :=
  match l with
  | [] => EmptyString
  | [(k, v)] => k +:+ "=" +:+ v
  | (k, v) :: rest => k +:+ "=" +:+ v +:+ "&" +:+ encode_params rest
  end.

Definition double_quote : string := String (ascii_of_nat 34) EmptyString.

Definition quoted (s : string) : string :=
  double_quote +:+ s +:+ double_quote.

(** JSON text, without indentation and without escapes; an [undefined]
    member is printed as [null]. *)
Fixpoint to_json (v : JsValue) : string :=
  match v with
  | VUndefined | VNull => "null"
  | VBool true => "true"
  | VBool false => "false"
  | VNum n => pretty n
  | VStr s => quoted s
  | VArr items =>
      "[" +:+ (fix elements (l : list JsValue) : string :=
                 match l with
                 | [] => EmptyString
                 | x :: rest =>
                     to_json x
                     +:+ match rest with
                         | [] => EmptyString
                         | _ => "," +:+ elements rest
                         end
                 end) items +:+ "]"
  | VObj fields =>
      "{" +:+ (fix members (l : list (string * JsValue)) : string :=
                 match l with
                 | [] => EmptyString
                 | (k, x) :: rest =>
                     quoted k +:+ ":" +:+ to_json x
                     +:+ match rest with
                         | [] => EmptyString
                         | _ => "," +:+ members rest
                         end
                 end) fields +:+ "}"
  end.

#[export] Instance runtime : JsRuntime := {|
  js_String := to_string;
  JSON_stringify := to_json;
  JSON_stringify_pretty := to_json;
  URLSearchParams_toString := encode_params;
  Array_join := λ items sep, ConfigJs.join sep (map to_string items);
  iso_format := λ t, pretty t;
  type_error := λ what, "TypeError: " +:+ what;
  process_uptime := VNum 0;
  process_memoryUsage := VObj [];
  process_version := "v20"
|}.

End Script.

(** ** Vocabulary of the statements *)

Section Vocabulary.
Context `{Backend}.

Definition with_world (w : World) (st : State) : State :=
  {| authToken := authToken st; authExpiry := authExpiry st;
     world := w; calls := calls st |}.

Definition with_cache (token : option string) (expiry : option N)
    (st : State) : State :=
  {| authToken := token; authExpiry := expiry;
     world := world st; calls := calls st |}.

(** The state once call [c] has been answered, the world now being [w]. *)
Definition after_call (c : Call) (w : World) (st : State) : State :=
  {| authToken := authToken st; authExpiry := authExpiry st;
     world := w; calls := calls st ++ [c] |}.

(** The cache check of [getAuthToken] fails on [st] and leaves [st1]:
    either a variable is unset, or the clock was read and has reached the
    expiry. *)
Inductive cache_miss : State → State → Prop :=
| miss_unset (st : State) :
    truthy (authToken st) && truthy_time (authExpiry st) = false →
    cache_miss st st
| miss_expired (st : State) (e t : N) (w : World) :
    truthy (authToken st) = true →
    authExpiry st = Some e →
    e ≠ 0%N →
    Date_now (world st) = (t, w) →
    (e ≤ t)%N →
    cache_miss st (with_world w st).

(** The state in which the retry path of [baasixRequest] asks for a new
    token: both variables are reset to [null]. *)
Definition cleared (st : State) : State := with_cache None None st.

(** Two states with the same token variables. *)
Definition same_cache (st st' : State) : Prop :=
  authToken st' = authToken st ∧ authExpiry st' = authExpiry st.

(** The dispatcher's [catch]: a plain [Error] becomes an [InternalError]
    that carries its message. *)
Definition reported (r : (Exn + ToolResult) * State) : (Exn + ToolResult) * State :=
  match r with
  | (inr result, st') => (inr result, st')
  | (inl e, st') =>
      (inl (McpError InternalError
              ("Tool execution failed: " +:+ error_message e)), st')
  end.

Definition login_count (st : State) : nat :=
  length (filter (λ c, is_login c = true) (calls st)).

Definition api_count (st : State) : nat :=
  length (filter (λ c, is_api c = true) (calls st)).

Definition api_count_to (endpoint : string) (st : State) : nat :=
  length (filter (λ c, is_api_to endpoint c = true) (calls st)).

End Vocabulary.

Definition explicit_token_mode (cfg : Config) : Prop :=
  truthy (BAASIX_AUTH_TOKEN cfg) = true.

Definition email_password_mode (cfg : Config) : Prop :=
  truthy (BAASIX_AUTH_TOKEN cfg) = false
  ∧ truthy (BAASIX_EMAIL cfg) = true
  ∧ truthy (BAASIX_PASSWORD cfg) = true.

Definition login_url (cfg : Config) : string :=
  BAASIX_URL cfg +:+ "/auth/login".

Definition login_call (cfg : Config) : Call :=
  LoginCall (login_url cfg) (BAASIX_EMAIL cfg) (BAASIX_PASSWORD cfg).

(** The key is supplied neither by the process environment nor by the
    [.env] file. *)
Definition not_supplied (h : ConfigJs.Host) (key : string) : Prop :=
  ConfigJs.process_env h !! key = None
  ∧ ∀ parsed, ConfigJs.dotenv_parsed h = Some parsed → parsed !! key = None.

(** The two things [validateConfig] asks of a configuration: a URL that
    parses, and a token or a complete email/password pair. *)
Definition url_ok (url_parses : string → bool) (config : gmap string string)
    : Prop :=
  ∃ u, config !! "BAASIX_URL" = Some u
       ∧ truthy_string u = true ∧ url_parses u = true.

Definition credentials_ok (config : gmap string string) : Prop :=
  truthy (config !! "BAASIX_AUTH_TOKEN") = true
  ∨ (truthy (config !! "BAASIX_EMAIL") = true
     ∧ truthy (config !! "BAASIX_PASSWORD") = true).

(** The tools whose handlers do not destructure their arguments. *)
Definition argument_free_tools : list string :=
  ["baasix_export_schemas"; "baasix_list_roles"; "baasix_reload_permissions";
   "baasix_get_user_tenants"; "baasix_logout"].

(** Whether [loadEnvironmentConfig] reads the [.env] file. *)
Definition reads_env_file (options : ConfigJs.LoadOptions) (h : ConfigJs.Host)
    : bool :=
  truthy (ConfigJs.envPath options) || ConfigJs.env_file_exists h.

(** What a handler that only proxies does with its arguments: either it
    builds one and the same request whatever they are, or it throws the
    TypeError of destructuring when they are [undefined]. *)
Definition argument_policy `{JsRuntime} (entry : string * Handler) : Prop :=
  match entry.2 with
  | Proxy request =>
      if bool_decide (entry.1 ∈ argument_free_tools)
      then ∃ req, ∀ args, request args = inr req
      else request None = inl (type_error "args")
  | _ => True
  end.

(** ** Concrete configurations and backends *)

Module Scenario.
Import Script.

(** Email and password only. *)
Definition login_cfg : Config :=
  {| BAASIX_URL := "http://localhost:8056";
     BAASIX_AUTH_TOKEN := None;
     BAASIX_EMAIL := Some "a@b.com";
     BAASIX_PASSWORD := Some "x" |}.

(** An explicit token. *)
Definition token_cfg : Config :=
  {| BAASIX_URL := "http://localhost:8056";
     BAASIX_AUTH_TOKEN := Some "secret";
     BAASIX_EMAIL := None;
     BAASIX_PASSWORD := None |}.

(** Neither a token nor a password. *)
Definition bare_cfg : Config :=
  {| BAASIX_URL := "http://localhost:8056";
     BAASIX_AUTH_TOKEN := None;
     BAASIX_EMAIL := Some EmptyString;
     BAASIX_PASSWORD := None |}.

Definition unauthorized : Rejection := http_error 401 "Token expired".

Definition products : option Args := Some [("collection", VStr "products")].

(** The backend accepts every login; it answers the first request with
    401 and the second with 200. *)
Definition expired_once : @World backend :=
  {| logins := [inr (Some "t1"); inr (Some "t2")];
     replies := [inl unauthorized; inr (VArr [])];
     clock := 1000 |}.

(** The backend accepts the first login, answers the request with 401 and
    then refuses the login that would refresh the token. *)
Definition refresh_refused : @World backend :=
  {| logins := [inr (Some "t1"); inl (http_error 403 "Account disabled")];
     replies := [inl unauthorized; inr (VArr [])];
     clock := 1000 |}.

(** The backend accepts the login and answers with 200. *)
Definition healthy : @World backend :=
  {| logins := [inr (Some "t1")];
     replies := [inr (VArr [])];
     clock := 1000 |}.

(** A process that cached token [t1] at time [T]. *)
Definition cached_at (T : N) (w : @World backend) : State :=
  {| authToken := Some "t1"; authExpiry := Some (T + 3600000)%N;
     world := w; calls := [] |}.

(** The healthy backend at a later time. *)
Definition healthy_at (t : N) : @World backend :=
  {| logins := [inr (Some "t2")]; replies := [inr (VArr [])]; clock := t |}.

(** A host where only [BAASIX_URL] is set: no [.env] file, nothing else in
    the process environment. *)
Definition only_url : ConfigJs.Host :=
  {| ConfigJs.env_file_exists := false;
     ConfigJs.dotenv_parsed := None;
     ConfigJs.process_env := <["BAASIX_URL" := "http://localhost:8056"]> ∅ |}.


(** A host whose [.env] blanks the default credentials. *)
Definition blank_credentials : ConfigJs.Host :=
  {| ConfigJs.env_file_exists := true;
     ConfigJs.dotenv_parsed :=
       Some (<["BAASIX_EMAIL" := EmptyString]>
               (<["BAASIX_PASSWORD" := EmptyString]> ∅));
     ConfigJs.process_env := <["BAASIX_URL" := "http://localhost:8056"]> ∅ |}.

End Scenario.

(** * Properties *)

Ltac run_monad :=
  unfold sync in *;
  unfold mbind, M_bind, mret, M_ret, throw, try_catch,
    read_authToken, read_authExpiry, write_authToken, write_authExpiry,
    now, axios_post, axios in *;
  simpl in *.

Section TokenResolution.
Context `{Backend} (cfg : Config).

Lemma cached_token_valid_hit (st : State) (e t : N) (w : World) :
  truthy (authToken st) = true →
  authExpiry st = Some e →
  Date_now (world st) = (t, w) →
  (t < e)%N →
  cached_token_valid st = (inr true, with_world w st).
Proof.
  intros Htok Hexp Hnow Hlt.
  unfold cached_token_valid. run_monad.
  rewrite Htok, Hexp. simpl.
  assert (e ≠ 0%N) as Hne by lia.
  apply N.eqb_neq in Hne. rewrite Hne. simpl.
  rewrite Hnow. apply N.ltb_lt in Hlt. rewrite Hlt. reflexivity.
Qed.

Lemma cached_token_valid_miss (st st1 : State) :
  cache_miss st st1 → cached_token_valid st = (inr false, st1).
Proof.
  intros Hmiss. unfold cached_token_valid. run_monad.
  destruct Hmiss as [st Hunset | st e t w Htok Hexp Hne Hnow Hle].
  - rewrite Hunset. destruct st; reflexivity.
  - rewrite Htok, Hexp. simpl.
    apply N.eqb_neq in Hne. rewrite Hne. simpl.
    rewrite Hnow. apply N.ltb_ge in Hle. rewrite Hle. reflexivity.
Qed.

(** The cache check always hits or misses: the cases of the resolution
    order leave no state out. *)
Lemma cache_hit_or_miss (st : State) :
  (∃ e t w, truthy (authToken st) = true ∧ authExpiry st = Some e
            ∧ Date_now (world st) = (t, w) ∧ (t < e)%N)
  ∨ ∃ st1, cache_miss st st1.
Proof.
  destruct (truthy (authToken st)) eqn:Htok.
  - destruct (authExpiry st) as [e|] eqn:Hexp.
    + destruct (N.eq_dec e 0%N) as [-> | Hne].
      * right. exists st. apply miss_unset. rewrite Htok, Hexp. reflexivity.
      * destruct (Date_now (world st)) as [t w] eqn:Hnow.
        destruct (N.lt_ge_cases t e) as [Hlt | Hge].
        -- left. exists e, t, w. auto.
        -- right. exists (with_world w st). eapply miss_expired; eauto.
    + right. exists st. apply miss_unset. rewrite Htok, Hexp. reflexivity.
  - right. exists st. apply miss_unset. rewrite Htok. reflexivity.
Qed.

Lemma getAuthToken_explicit (st : State) :
  explicit_token_mode cfg →
  getAuthToken cfg st = (inr (BAASIX_AUTH_TOKEN cfg), st).
Proof.
  unfold explicit_token_mode, getAuthToken. intros ->. reflexivity.
Qed.

Lemma getAuthToken_cached (st : State) (e t : N) (w : World) :
  truthy (BAASIX_AUTH_TOKEN cfg) = false →
  truthy (authToken st) = true →
  authExpiry st = Some e →
  Date_now (world st) = (t, w) →
  (t < e)%N →
  getAuthToken cfg st = (inr (authToken st), with_world w st).
Proof.
  intros Hexplicit Htok Hexp Hnow Hlt.
  unfold getAuthToken. rewrite Hexplicit.
  unfold mbind, M_bind.
  rewrite (cached_token_valid_hit st e t w) by assumption.
  reflexivity.
Qed.

Lemma getAuthToken_login_ok (st st1 : State) (token : option string)
    (t : N) (w' w'' : World) :
  truthy (BAASIX_AUTH_TOKEN cfg) = false →
  cache_miss st st1 →
  truthy (BAASIX_EMAIL cfg) = true →
  truthy (BAASIX_PASSWORD cfg) = true →
  axios_post_login (login_url cfg) (BAASIX_EMAIL cfg) (BAASIX_PASSWORD cfg)
    (world st1) = (inr token, w') →
  Date_now w' = (t, w'') →
  getAuthToken cfg st =
    (inr token,
     {| authToken := token; authExpiry := Some (t + 3600000)%N;
        world := w''; calls := calls st1 ++ [login_call cfg] |}).
Proof.
  intros Hexplicit Hmiss Hemail Hpassword Hlogin Hnow.
  unfold getAuthToken. rewrite Hexplicit.
  unfold mbind at 1, M_bind at 1.
  rewrite (cached_token_valid_miss st st1 Hmiss).
  rewrite Hemail, Hpassword. simpl.
  unfold login_url in Hlogin. run_monad.
  rewrite Hlogin. simpl. rewrite Hnow. reflexivity.
Qed.

Lemma getAuthToken_login_rejected (st st1 : State) (rej : Rejection)
    (w' : World) :
  truthy (BAASIX_AUTH_TOKEN cfg) = false →
  cache_miss st st1 →
  truthy (BAASIX_EMAIL cfg) = true →
  truthy (BAASIX_PASSWORD cfg) = true →
  axios_post_login (login_url cfg) (BAASIX_EMAIL cfg) (BAASIX_PASSWORD cfg)
    (world st1) = (inl rej, w') →
  getAuthToken cfg st =
    (inl (AuthenticationFailed (describe (reject rej))),
     after_call (login_call cfg) w' st1).
Proof.
  intros Hexplicit Hmiss Hemail Hpassword Hlogin.
  unfold getAuthToken. rewrite Hexplicit.
  unfold mbind at 1, M_bind at 1.
  rewrite (cached_token_valid_miss st st1 Hmiss).
  rewrite Hemail, Hpassword. simpl.
  unfold login_url in Hlogin. run_monad.
  rewrite Hlogin. reflexivity.
Qed.

Lemma getAuthToken_no_method (st st1 : State) :
  truthy (BAASIX_AUTH_TOKEN cfg) = false →
  cache_miss st st1 →
  truthy (BAASIX_EMAIL cfg) && truthy (BAASIX_PASSWORD cfg) = false →
  getAuthToken cfg st = (inl NoAuthenticationMethod, st1).
Proof.
  intros Hexplicit Hmiss Hcred.
  unfold getAuthToken. rewrite Hexplicit.
  unfold mbind at 1, M_bind at 1.
  rewrite (cached_token_valid_miss st st1 Hmiss).
  rewrite Hcred. reflexivity.
Qed.

End TokenResolution.

Section TokenLifecycle.
Context `{Backend} (cfg : Config).

(** C2.  [getAuthToken] resolves the credential in a fixed order, the
    first match winning: (1) a configured explicit token is returned as it
    is, the state untouched; (2) otherwise a cached token whose expiry the
    clock has not reached is returned; (3) otherwise, with email and
    password configured, one login exchange is made: the token it returns
    is cached with an expiry one hour (3600000 ms) after the clock reading
    that follows it and is returned, and a rejected exchange raises the
    authentication error that carries the upstream message; (4) otherwise
    the error saying that no authentication method is available is
    raised. *)
Theorem getAuthToken_resolution_order (st : State) :
  (truthy (BAASIX_AUTH_TOKEN cfg) = true →
     getAuthToken cfg st = (inr (BAASIX_AUTH_TOKEN cfg), st))
  ∧ (truthy (BAASIX_AUTH_TOKEN cfg) = false →
     ∀ (e t : N) (w : World),
       truthy (authToken st) = true →
       authExpiry st = Some e →
       Date_now (world st) = (t, w) →
       (t < e)%N →
       getAuthToken cfg st = (inr (authToken st), with_world w st))
  ∧ (truthy (BAASIX_AUTH_TOKEN cfg) = false →
     ∀ st1 : State,
       cache_miss st st1 →
       truthy (BAASIX_EMAIL cfg) = true →
       truthy (BAASIX_PASSWORD cfg) = true →
       ∀ w' : World,
         (∀ (token : option string) (t : N) (w'' : World),
            axios_post_login (login_url cfg) (BAASIX_EMAIL cfg)
              (BAASIX_PASSWORD cfg) (world st1) = (inr token, w') →
            Date_now w' = (t, w'') →
            getAuthToken cfg st =
              (inr token,
               {| authToken := token;
                  authExpiry := Some (t + 3600000)%N;
                  world := w'';
                  calls := calls st1 ++ [login_call cfg] |}))
         ∧ (∀ rej : Rejection,
              axios_post_login (login_url cfg) (BAASIX_EMAIL cfg)
                (BAASIX_PASSWORD cfg) (world st1) = (inl rej, w') →
              getAuthToken cfg st =
                (inl (AuthenticationFailed (describe (reject rej))),
                 after_call (login_call cfg) w' st1)))
  ∧ (truthy (BAASIX_AUTH_TOKEN cfg) = false →
     ∀ st1 : State,
       cache_miss st st1 →
       truthy (BAASIX_EMAIL cfg) && truthy (BAASIX_PASSWORD cfg) = false →
       getAuthToken cfg st = (inl NoAuthenticationMethod, st1)).
Proof.
  repeat split.
  - intros Hexplicit. by apply getAuthToken_explicit.
  - intros Hexplicit e t w. by apply getAuthToken_cached.
  - intros token t w''. by apply getAuthToken_login_ok.
  - intros rej. by apply getAuthToken_login_rejected.
  - intros Hexplicit st1. by apply getAuthToken_no_method.
Qed.

(** C4.  In email/password mode, let a call of [getAuthToken] obtain token
    [tok] by a login exchange, the clock reading that follows the exchange
    being [T].  Then a later call, in any state that still holds what that
    call cached, at clock reading [T'], returns [tok] without any exchange
    when [T' - T < 3600 s], and makes a fresh login exchange when
    [T' - T >= 3600 s]: its token and a new expiry replace the cached ones,
    and a refused exchange raises the authentication error.  Times are in
    milliseconds. *)
Theorem cached_token_reused_within_the_hour
    (st0 st0' : State) (tok : string) (T : N) (w1 wT : World) :
  email_password_mode cfg →
  cache_miss st0 st0' →
  axios_post_login (login_url cfg) (BAASIX_EMAIL cfg) (BAASIX_PASSWORD cfg)
    (world st0') = (inr (Some tok), w1) →
  truthy_string tok = true →
  Date_now w1 = (T, wT) →
  (getAuthToken cfg st0).1 = inr (Some tok)
  ∧ ∀ (st : State) (T' : N) (w : World),
      same_cache (getAuthToken cfg st0).2 st →
      Date_now (world st) = (T', w) →
      ((Z.of_N T' - Z.of_N T < 3600 * 1000)%Z →
         getAuthToken cfg st = (inr (Some tok), with_world w st))
      ∧ ((Z.of_N T' - Z.of_N T >= 3600 * 1000)%Z →
         ∀ w' : World,
           (∀ (token : option string) (t : N) (w'' : World),
              axios_post_login (login_url cfg) (BAASIX_EMAIL cfg)
                (BAASIX_PASSWORD cfg) w = (inr token, w') →
              Date_now w' = (t, w'') →
              getAuthToken cfg st =
                (inr token,
                 {| authToken := token;
                    authExpiry := Some (t + 3600000)%N;
                    world := w'';
                    calls := calls st ++ [login_call cfg] |}))
           ∧ (∀ rej : Rejection,
                axios_post_login (login_url cfg) (BAASIX_EMAIL cfg)
                  (BAASIX_PASSWORD cfg) w = (inl rej, w') →
                getAuthToken cfg st =
                  (inl (AuthenticationFailed (describe (reject rej))),
                   after_call (login_call cfg) w' (with_world w st)))).
Proof.
  intros (Hexplicit & Hemail & Hpassword) Hmiss0 Hlogin0 Htruthy HnowT.
  rewrite (getAuthToken_login_ok cfg st0 st0' (Some tok) T w1 wT) by assumption.
  split; [reflexivity |].
  intros st T' w [Htok Hexp] Hnow. cbn [snd authToken authExpiry] in Htok, Hexp.
  assert (truthy (authToken st) = true) as Hcached
    by (rewrite Htok; exact Htruthy).
  split.
  - intros Hfresh. rewrite <- Htok.
    apply (getAuthToken_cached cfg st (T + 3600000)%N T' w); auto. lia.
  - intros Hstale w'.
    assert (cache_miss st (with_world w st)) as Hmiss.
    { apply (miss_expired st (T + 3600000)%N T' w); auto; lia. }
    split.
    + intros token t w'' Hlogin Hnow'.
      by apply (getAuthToken_login_ok cfg st (with_world w st) token t w' w'').
    + intros rej Hlogin.
      by apply (getAuthToken_login_rejected cfg st (with_world w st) rej w').
Qed.

End TokenLifecycle.

Section ProxyRequest.
Context `{Backend} (cfg : Config).

Lemma baasixRequest_no_token (endpoint : string) (options : Options)
    (st st1 : State) (e : Exn) :
  getAuthToken cfg st = (inl e, st1) →
  baasixRequest cfg endpoint options st = (inl e, st1).
Proof.
  intros Htoken. unfold baasixRequest.
  unfold mbind at 1, M_bind at 1. rewrite Htoken. reflexivity.
Qed.

Lemma baasixRequest_accepted (endpoint : string) (options : Options)
    (st st1 : State) (token : option string) (data : JsValue) (w2 : World) :
  getAuthToken cfg st = (inr token, st1) →
  axios_request endpoint (request_config cfg token options) (world st1)
    = (inr data, w2) →
  baasixRequest cfg endpoint options st =
    (inr data,
     after_call (ApiCall endpoint (request_config cfg token options)) w2 st1).
Proof.
  intros Htoken Hreply. unfold baasixRequest.
  unfold mbind at 1, M_bind at 1. rewrite Htoken.
  unfold try_catch, axios. rewrite Hreply. reflexivity.
Qed.

Lemma baasixRequest_not_retried (endpoint : string) (options : Options)
    (st st1 : State) (token : option string) (rej : Rejection) (w2 : World) :
  getAuthToken cfg st = (inr token, st1) →
  axios_request endpoint (request_config cfg token options) (world st1)
    = (inl rej, w2) →
  status_is (reject rej) 401 && truthy (authToken st1)
    && negb (truthy (BAASIX_AUTH_TOKEN cfg)) = false →
  baasixRequest cfg endpoint options st =
    (inl (ApiError (describe (reject rej))),
     after_call (ApiCall endpoint (request_config cfg token options)) w2 st1).
Proof.
  intros Htoken Hreply Hguard. unfold baasixRequest.
  unfold mbind at 1, M_bind at 1. rewrite Htoken.
  unfold try_catch at 1, axios. rewrite Hreply.
  run_monad. rewrite Hguard. reflexivity.
Qed.

(** What the retry path does, in terms of the second [getAuthToken]. *)
Lemma baasixRequest_retried (endpoint : string) (options : Options)
    (st st1 : State) (token : option string) (rej : Rejection) (w2 : World) :
  getAuthToken cfg st = (inr token, st1) →
  axios_request endpoint (request_config cfg token options) (world st1)
    = (inl rej, w2) →
  status_is (reject rej) 401 && truthy (authToken st1)
    && negb (truthy (BAASIX_AUTH_TOKEN cfg)) = true →
  let config := request_config cfg token options in
  let st2 := cleared (after_call (ApiCall endpoint config) w2 st1) in
  baasixRequest cfg endpoint options st =
    match getAuthToken cfg st2 with
    | (inl e, st3) => (inl (ApiError (describe e)), st3)
    | (inr newToken, st3) =>
        if truthy newToken then
          match axios_request endpoint (set_authorization newToken config)
                  (world st3) with
          | (inr data, w4) =>
              (inr data,
               after_call
                 (ApiCall endpoint (set_authorization newToken config))
                 w4 st3)
          | (inl rej', w4) =>
              (inl (ApiError (describe (reject rej'))),
               after_call
                 (ApiCall endpoint (set_authorization newToken config))
                 w4 st3)
          end
        else (inl (ApiError (describe (reject rej))), st3)
    end.
Proof.
  intros Htoken Hreply Hguard config st2. unfold baasixRequest.
  unfold mbind at 1, M_bind at 1. rewrite Htoken.
  unfold try_catch at 1, axios at 1. rewrite Hreply.
  unfold mbind at 1, M_bind at 1, read_authToken at 1.
  cbn [authToken after_call]. rewrite Hguard.
  unfold mbind at 1, M_bind at 1.
  unfold mbind at 1, M_bind at 1, write_authToken at 1.
  unfold mbind at 1, M_bind at 1, write_authExpiry at 1.
  cbn [authToken authExpiry world calls].
  unfold try_catch at 1.
  unfold mbind at 1, M_bind at 1.
  change {| authToken := None; authExpiry := None; world := w2;
            calls := calls st1
                     ++ [ApiCall endpoint (request_config cfg token options)]
         |} with st2.
  subst config.
  destruct (getAuthToken cfg st2) as [[e | newToken] st3].
  - reflexivity.
  - destruct (truthy newToken).
    + run_monad.
      destruct (axios_request endpoint
                  (set_authorization newToken
                     (request_config cfg token options))
                  (world st3)) as [[rej' | data] w4]; reflexivity.
    + reflexivity.
Qed.

End ProxyRequest.

Section ThrownValues.
Context `{Backend} (cfg : Config).

(** What [getAuthToken] throws is one of the two authentication errors. *)
Lemma getAuthToken_throws (st st' : State) (e : Exn) :
  getAuthToken cfg st = (inl e, st') → is_AuthenticationError e.
Proof.
  unfold getAuthToken, cached_token_valid, is_AuthenticationError.
  run_monad. intros Hrun.
  repeat case_match; simplify_eq; eauto.
Qed.

(** [getAuthToken] makes no call or exactly one login exchange. *)
Lemma getAuthToken_calls (st st' : State) (r : Exn + option string) :
  getAuthToken cfg st = (r, st') →
  calls st' = calls st ∨ calls st' = calls st ++ [login_call cfg].
Proof.
  unfold getAuthToken, cached_token_valid, login_call, login_url.
  run_monad. intros Hrun.
  repeat case_match; simplify_eq; simpl; auto.
Qed.

(** What [baasixRequest] throws is a plain [Error]. *)
Lemma baasixRequest_throws (endpoint : string) (options : Options)
    (st st' : State) (e : Exn) :
  baasixRequest cfg endpoint options st = (inl e, st') →
  ∃ message, e = JsError message.
Proof.
  unfold baasixRequest. unfold mbind at 1, M_bind at 1.
  destruct (getAuthToken cfg st) as [[e0 | token] st1] eqn:Htoken.
  - intros [= <- <-].
    destruct (getAuthToken_throws _ _ _ Htoken) as [-> | [m ->]]; eauto.
  - unfold ApiError. run_monad. intros Hrun.
    repeat case_match; simplify_eq; eauto.
Qed.

(** X7.  One invocation of [baasixRequest] makes at most two proxied
    requests and at most two login exchanges, whatever the backend answers:
    there is no second retry. *)
Lemma baasixRequest_call_bound (endpoint : string) (options : Options)
    (st : State) :
  ∃ made : list Call,
    calls (baasixRequest cfg endpoint options st).2 = calls st ++ made
    ∧ (length (filter (λ c, is_api c = true) made) ≤ 2)%nat
    ∧ (length (filter (λ c, is_login c = true) made) ≤ 2)%nat.
Proof.
  unfold baasixRequest. unfold mbind at 1, M_bind at 1.
  destruct (getAuthToken cfg st) as [[e | token] st1] eqn:Hfirst;
    apply getAuthToken_calls in Hfirst.
  - destruct Hfirst as [Hc1 | Hc1];
      [exists [] | exists [login_call cfg]];
      (split; [cbn; rewrite Hc1, ?app_nil_r; reflexivity
              | simpl; auto with lia]).
  - unfold try_catch at 1, axios at 1.
    destruct (axios_request endpoint (request_config cfg token options)
                (world st1)) as [[rej | data] w2].
    + unfold mbind at 1, M_bind at 1, read_authToken at 1.
      destruct (status_is (reject rej) 401 && truthy _ && negb _).
      * unfold mbind at 1, M_bind at 1.
        unfold mbind at 1, M_bind at 1, write_authToken at 1.
        unfold mbind at 1, M_bind at 1, write_authExpiry at 1.
        unfold try_catch at 1. unfold mbind at 1, M_bind at 1.
        match goal with
        | |- context [getAuthToken cfg ?s] =>
            destruct (getAuthToken cfg s) as [[e | newToken] st3] eqn:Hsecond;
            apply getAuthToken_calls in Hsecond; cbn [calls] in Hsecond
        end.
        -- destruct Hfirst as [Hc1 | Hc1], Hsecond as [Hc3 | Hc3];
             eexists; (split;
               [cbn; rewrite Hc3, Hc1, <- ?app_assoc; reflexivity
               | simpl; auto with lia]).
        -- destruct (truthy newToken); run_monad;
             [destruct (axios_request endpoint _ (world st3))
                as [[rej' | data] w4] |];
             destruct Hfirst as [Hc1 | Hc1], Hsecond as [Hc3 | Hc3];
             eexists; (split;
               [cbn; rewrite Hc3, Hc1, <- ?app_assoc; reflexivity
               | simpl; auto with lia]).
      * destruct Hfirst as [Hc1 | Hc1];
          eexists; (split;
            [cbn; rewrite Hc1, <- ?app_assoc; reflexivity
            | simpl; auto with lia]).
    + destruct Hfirst as [Hc1 | Hc1];
        eexists; (split;
          [cbn; rewrite Hc1, <- ?app_assoc; reflexivity
          | simpl; auto with lia]).
Qed.

End ThrownValues.

Section RetryOnce.
Context `{Backend} (cfg : Config).

(** C1, as amended.  Let [baasixRequest] have obtained [token] and let the
    backend reject the request.  (a) If the status is not 401, or the
    cached token is empty, or the mode is explicit-token, an [ApiError]
    with the upstream message is raised after that single request.  (b) In
    email/password mode, with status 401 and a cached token, the cache is
    cleared and one login exchange is made; if it is refused, an
    [ApiError] carrying the authentication failure is raised and the
    request is not re-issued; if it returns no usable token, the
    [ApiError] of the first rejection is raised and the request is not
    re-issued; otherwise the request is re-issued exactly once with the
    new bearer token: its data is returned, or its rejection, whatever its
    status, is raised as an [ApiError], and nothing follows it. *)
Theorem baasixRequest_retries_at_most_once
    (endpoint : string) (options : Options) (st st1 : State)
    (token : option string) (rej : Rejection) (w2 : World) :
  getAuthToken cfg st = (inr token, st1) →
  axios_request endpoint (request_config cfg token options) (world st1)
    = (inl rej, w2) →
  let config := request_config cfg token options in
  let st2 := after_call (ApiCall endpoint config) w2 st1 in
  (status_is (reject rej) 401 = false ∨ truthy (authToken st1) = false
     ∨ explicit_token_mode cfg →
   baasixRequest cfg endpoint options st
     = (inl (ApiError (describe (reject rej))), st2))
  ∧ (email_password_mode cfg →
     status_is (reject rej) 401 = true →
     truthy (authToken st1) = true →
     ∀ w3 : World,
       (∀ rej' : Rejection,
          axios_post_login (login_url cfg) (BAASIX_EMAIL cfg)
            (BAASIX_PASSWORD cfg) w2 = (inl rej', w3) →
          baasixRequest cfg endpoint options st
            = (inl (ApiError ("Authentication failed: "
                              +:+ describe (reject rej'))),
               after_call (login_call cfg) w3 (cleared st2)))
       ∧ (∀ (newToken : option string) (t : N) (w4 : World),
            axios_post_login (login_url cfg) (BAASIX_EMAIL cfg)
              (BAASIX_PASSWORD cfg) w2 = (inr newToken, w3) →
            Date_now w3 = (t, w4) →
            let st3 :=
              {| authToken := newToken;
                 authExpiry := Some (t + 3600000)%N;
                 world := w4;
                 calls := calls st2 ++ [login_call cfg] |} in
            let retry := ApiCall endpoint (set_authorization newToken config) in
            (truthy newToken = false →
             baasixRequest cfg endpoint options st
               = (inl (ApiError (describe (reject rej))), st3))
            ∧ (truthy newToken = true →
               ∀ w5 : World,
                 (∀ data : JsValue,
                    axios_request endpoint
                      (set_authorization newToken config) w4
                      = (inr data, w5) →
                    baasixRequest cfg endpoint options st
                      = (inr data, after_call retry w5 st3))
                 ∧ (∀ rej'' : Rejection,
                      axios_request endpoint
                        (set_authorization newToken config) w4
                        = (inl rej'', w5) →
                      baasixRequest cfg endpoint options st
                        = (inl (ApiError (describe (reject rej''))),
                           after_call retry w5 st3))))).
Proof.
  intros Htoken Hreply config st2. split.
  - intros Hno. apply baasixRequest_not_retried; [assumption.. |].
    destruct Hno as [-> | [-> | Hexplicit]].
    + reflexivity.
    + apply andb_false_iff. left. apply andb_false_r.
    + unfold explicit_token_mode in Hexplicit. rewrite Hexplicit.
      apply andb_false_r.
  - intros (Hexplicit & Hemail & Hpassword) Hstatus Hcached w3.
    assert (status_is (reject rej) 401 && truthy (authToken st1)
            && negb (truthy (BAASIX_AUTH_TOKEN cfg)) = true) as Hguard
      by (rewrite Hstatus, Hcached, Hexplicit; reflexivity).
    pose proof (baasixRequest_retried cfg endpoint options st st1 token rej
                  w2 Htoken Hreply Hguard) as Hrun.
    cbv zeta in Hrun. fold config in Hrun. fold st2 in Hrun.
    assert (cache_miss (cleared st2) (cleared st2)) as Hmiss
      by (apply miss_unset; reflexivity).
    split.
    + intros rej' Hlogin.
      rewrite Hrun.
      rewrite (getAuthToken_login_rejected cfg _ _ rej' w3 Hexplicit Hmiss
                 Hemail Hpassword Hlogin).
      reflexivity.
    + intros newToken t w4 Hlogin Hnow st3 retry.
      rewrite Hrun.
      rewrite (getAuthToken_login_ok cfg _ _ newToken t w3 w4 Hexplicit Hmiss
                 Hemail Hpassword Hlogin Hnow).
      fold st3. split.
      * intros ->. reflexivity.
      * intros ->. intros w5. split.
        -- intros data Hretry. cbn [world st3]. rewrite Hretry. reflexivity.
        -- intros rej'' Hretry. cbn [world st3]. rewrite Hretry. reflexivity.
Qed.

End RetryOnce.

(** ** Concrete runs of the token lifecycle and of the retry *)

Module Runs.
Import Script Scenario.

Lemma getAuthToken_resolution_order_witness :
  getAuthToken token_cfg (fresh healthy) = (inr (Some "secret"), fresh healthy)
  ∧ getAuthToken bare_cfg (fresh healthy)
    = (inl NoAuthenticationMethod, fresh healthy).
Proof.
  split.
  - apply (proj1 (getAuthToken_resolution_order token_cfg (fresh healthy))).
    reflexivity.
  - apply (proj2 (proj2 (proj2
             (getAuthToken_resolution_order bare_cfg (fresh healthy))))).
    + reflexivity.
    + apply miss_unset. reflexivity.
    + reflexivity.
Defined.

Lemma cached_token_reused_within_the_hour_witness :
  getAuthToken login_cfg (cached_at 1000 (healthy_at 3600999))
  = (inr (Some "t1"), cached_at 1000 (healthy_at 3600999)).
Proof.
  apply (proj1 (proj2 (cached_token_reused_within_the_hour login_cfg
                         (fresh healthy) (fresh healthy) "t1" 1000
                         {| logins := []; replies := [inr (VArr [])];
                            clock := 1000 |}
                         {| logins := []; replies := [inr (VArr [])];
                            clock := 1000 |}
                         (conj eq_refl (conj eq_refl eq_refl))
                         (miss_unset (fresh healthy) eq_refl)
                         eq_refl eq_refl eq_refl)
                  (cached_at 1000 (healthy_at 3600999)) 3600999%N
                  (healthy_at 3600999)
                  (conj eq_refl eq_refl) eq_refl)).
  vm_compute. reflexivity.
Defined.

(** One millisecond later the hour is over: a login exchange is made. *)
Lemma token_refreshed_after_the_hour :
  getAuthToken login_cfg (cached_at 1000 (healthy_at 3601000))
  = (inr (Some "t2"),
     {| authToken := Some "t2"; authExpiry := Some 7201000%N;
        world := {| logins := []; replies := [inr (VArr [])];
                    clock := 3601000 |};
        calls := [login_call login_cfg] |}).
Proof. vm_compute. reflexivity. Qed.

(** C1, counterexample.  In email/password mode the first response has
    status 401, the cached token is cleared, but the backend refuses the
    login that would refresh it: no fresh token is obtained and the request
    is not re-issued (one proxied request in all, not two). *)
Lemma retry_not_issued_when_refresh_is_refused :
  let run := baasixRequest login_cfg "/items/products" no_request_options
               (fresh refresh_refused) in
  email_password_mode login_cfg
  ∧ head (replies refresh_refused) = Some (inl (http_error 401 "Token expired"))
  ∧ run.1 = inl (ApiError "Authentication failed: Account disabled")
  ∧ authToken run.2 = None
  ∧ api_count run.2 = 1
  ∧ api_count run.2 ≠ 2.
Proof.
  cbv zeta. repeat split; try reflexivity.
  vm_compute. discriminate.
Qed.

Lemma baasixRequest_retries_at_most_once_witness :
  (baasixRequest login_cfg "/items/products" no_request_options
     (fresh expired_once)).1 = inr (VArr []).
Proof.
  pose proof (baasixRequest_retries_at_most_once login_cfg "/items/products"
                no_request_options (fresh expired_once)
                (getAuthToken login_cfg (fresh expired_once)).2
                (Some "t1") unauthorized
                {| logins := [inr (Some "t2")]; replies := [inr (VArr [])];
                   clock := 1000 |}
                eq_refl eq_refl) as [_ Hretry].
  specialize (Hretry (conj eq_refl (conj eq_refl eq_refl)) eq_refl eq_refl
                {| logins := []; replies := [inr (VArr [])]; clock := 1000 |}).
  destruct Hretry as [_ Hrefresh].
  specialize (Hrefresh (Some "t2") 1000%N
                {| logins := []; replies := [inr (VArr [])]; clock := 1000 |}
                eq_refl eq_refl).
  destruct Hrefresh as [_ Hreissue].
  specialize (Hreissue eq_refl
                {| logins := []; replies := []; clock := 1000 |}).
  destruct Hreissue as [Hdata _].
  rewrite (Hdata (VArr []) eq_refl). reflexivity.
Defined.

End Runs.

(** ** The dispatcher and the catalog *)

Lemma assoc_None {A : Type} (key : string) (l : list (string * A)) :
  key ∉ map fst l → assoc key l = None.
Proof.
  induction l as [| [k v] l IH]; [reflexivity |].
  simpl. intros Hnotin.
  destruct (String.eqb_spec k key) as [-> | Hne].
  - exfalso. apply Hnotin. left.
  - apply IH. intros Hin. apply Hnotin. by right.
Qed.

Lemma assoc_Some {A : Type} (key : string) (l : list (string * A)) :
  key ∈ map fst l → ∃ v, assoc key l = Some v.
Proof.
  induction l as [| [k v] l IH]; simpl.
  - intros Hin. by apply elem_of_nil in Hin.
  - intros Hin. destruct (String.eqb_spec k key) as [-> | Hne]; [eauto |].
    apply elem_of_cons in Hin as [-> | Hin]; [done | by apply IH].
Qed.

Section Catalog.
Context `{JsRuntime}.

(** The [switch] has one label for each advertised tool, in the same
    order. *)
Lemma case_labels : map fst cases = map name tools.
Proof. reflexivity. Qed.

Lemma unregistered_no_case (n : string) :
  registered n = false → lookup_handler n = None.
Proof.
  unfold registered, lookup_handler. intros Hreg.
  apply bool_decide_eq_false in Hreg.
  apply assoc_None. by rewrite case_labels.
Qed.

Lemma registered_has_case (n : string) :
  registered n = true → ∃ h, lookup_handler n = Some h.
Proof.
  unfold registered, lookup_handler. intros Hreg.
  apply bool_decide_eq_true in Hreg.
  apply assoc_Some. by rewrite case_labels.
Qed.

End Catalog.

Section UnknownTool.
Context `{Backend} `{JsRuntime} (cfg : Config).

(** C7.  An invocation whose tool name is not in the catalog fails with
    [McpError(MethodNotFound, "Unknown tool: <name>")] and leaves the state as
    it was: no outbound call is recorded and the backend is not touched. *)
Theorem unknown_tool_is_MethodNotFound
    (n : string) (args : option Args) (st : State) :
  registered n = false →
  CallTool cfg n args st
  = (inl (McpError MethodNotFound ("Unknown tool: " +:+ n)), st).
Proof.
  intros Hreg. unfold CallTool, try_catch.
  rewrite (unregistered_no_case n Hreg). reflexivity.
Qed.

End UnknownTool.

(** ** Explicit-token mode *)

Section ExplicitToken.
Context `{Backend} `{JsRuntime} (cfg : Config).
Hypothesis explicit : explicit_token_mode cfg.










End ExplicitToken.

Section ExplicitTokenInvariant.
Context `{Backend} `{JsRuntime} (cfg : Config).

Lemma refresh_auth_case : lookup_handler "baasix_refresh_auth" = Some RefreshAuth.
Proof. reflexivity. Qed.


End ExplicitTokenInvariant.

(** ** What the handlers throw and return *)

Section HandlerOutcomes.
Context `{Backend} `{JsRuntime} (cfg : Config).

(** [handleAuthStatus] returns: whatever its body throws is caught. *)
Lemma handleAuthStatus_returns (args : option Args) (st : State) :
  ∃ body st', handleAuthStatus cfg args st = (inr (text_result body), st').
Proof.
  unfold handleAuthStatus, try_catch. unfold mret, M_ret.
  match goal with
  | |- context [match ?body st with _ => _ end] =>
      destruct (body st) as [[e | result] st'] eqn:Hbody
  end.
  - eauto.
  - revert Hbody. unfold cached_token_valid. run_monad.
    intros Hbody. repeat case_match; simplify_eq; eauto.
Qed.

Lemma handleRefreshAuth_returns (args : option Args) (st : State) :
  ∃ body st', handleRefreshAuth cfg args st = (inr (text_result body), st').
Proof.
  unfold handleRefreshAuth.
  destruct (truthy (BAASIX_AUTH_TOKEN cfg)); [unfold mret, M_ret; eauto |].
  unfold mbind at 1, M_bind at 1, write_authToken at 1.
  unfold mbind at 1, M_bind at 1, write_authExpiry at 1.
  unfold try_catch. unfold mret, M_ret.
  match goal with
  | |- context [match ?body ?s with _ => _ end] =>
      destruct (body s) as [[e | result] st'] eqn:Hbody
  end.
  - eauto.
  - revert Hbody. run_monad.
    intros Hbody. repeat case_match; simplify_eq; eauto.
Qed.

Lemma handleServerInfo_returns (args : option Args) (st : State) :
  ∃ body st', handleServerInfo cfg args st = (inr (text_result body), st').
Proof.
  unfold handleServerInfo, mcp_server_block, try_catch.
  unfold mbind at 1, M_bind at 1.
  destruct (baasixRequest cfg "/utils/info" no_request_options st)
    as [[e | info] st1]; run_monad;
    destruct (Date_now (world st1)) as [t w]; eauto.
Qed.

(** No handler throws a protocol error: what escapes a handler is a plain
    [Error]. *)
Lemma run_handler_throws (h : Handler) (args : option Args)
    (st st' : State) (e : Exn) :
  run_handler cfg h args st = (inl e, st') → ∃ message, e = JsError message.
Proof.
  destruct h as [request | | |]; simpl.
  - unfold proxy, sync. unfold mbind at 1, M_bind at 1.
    destruct (request args) as [message | [endpoint options]]; simpl.
    + intros [= <- <-]. eauto.
    + unfold mbind, M_bind.
      destruct (baasixRequest cfg endpoint options st) as [[e0 | data] st1]
        eqn:Hrun.
      * intros [= <- <-]. by eapply baasixRequest_throws.
      * discriminate.
  - intros Hrun. destruct (handleServerInfo_returns args st) as (b & s & Heq).
    congruence.
  - intros Hrun. destruct (handleAuthStatus_returns args st) as (b & s & Heq).
    congruence.
  - intros Hrun. destruct (handleRefreshAuth_returns args st) as (b & s & Heq).
    congruence.
Qed.

Lemma CallTool_runs_handler (n : string) (h : Handler) (args : option Args)
    (st : State) :
  lookup_handler n = Some h →
  CallTool cfg n args st = reported (run_handler cfg h args st).
Proof.
  intros Hcase. unfold CallTool, try_catch, reported. rewrite Hcase.
  destruct (run_handler cfg h args st) as [[e | result] st'] eqn:Hrun;
    [| reflexivity].
  destruct (run_handler_throws h args st st' e Hrun) as [message ->].
  reflexivity.
Qed.

End HandlerOutcomes.

Section Validation.
Context `{Backend} `{JsRuntime} (cfg : Config).

Lemma get_schema_case :
  lookup_handler "baasix_get_schema" = Some (Proxy handleGetSchema_request).
Proof. reflexivity. Qed.

Lemma auth_status_case : lookup_handler "baasix_auth_status" = Some AuthStatus.
Proof. reflexivity. Qed.

(** C6, as amended.  The dispatcher has no validation gate.  For every
    registered tool and every argument mapping, also one that omits a
    required field, the handler is executed, and the invocation yields what
    the handler returns or an [InternalError] that carries the handler's
    error: the code of a failure is never [InvalidParams].  An omitted field
    is read as [undefined]: [baasix_get_schema] without [collection]
    requests the path built from [String(undefined)]. *)
Theorem missing_required_field_reaches_handler :
  (∀ (n : string) (args : option Args) (st : State),
     registered n = true →
     ∃ h : Handler,
       lookup_handler n = Some h
       ∧ CallTool cfg n args st = reported (run_handler cfg h args st)
       ∧ ∀ (code : ErrorCode) (message : string) (st' : State),
           CallTool cfg n args st = (inl (McpError code message), st') →
           code = InternalError)
  ∧ (∀ (a : Args) (st : State),
       assoc "collection" a = None →
       handleGetSchema_request (Some a)
       = inr (fetch ("/schemas/" +:+ js_String VUndefined))
       ∧ CallTool cfg "baasix_get_schema" (Some a) st
         = reported (handleGetSchema cfg (Some a) st)).
Proof.
  split.
  - intros n args st Hreg.
    destruct (registered_has_case n Hreg) as [h Hcase].
    exists h. split; [assumption |].
    pose proof (CallTool_runs_handler cfg n h args st Hcase) as Hrun.
    split; [assumption |].
    intros code message st'. rewrite Hrun. unfold reported.
    destruct (run_handler cfg h args st) as [[e | result] st1]; congruence.
  - intros a st Hmissing. split.
    + unfold handleGetSchema_request, prop. simpl. by rewrite Hmissing.
    + apply (CallTool_runs_handler cfg _ _ _ _ get_schema_case).
Qed.

(** The cache check returns: it throws nothing. *)
Lemma cached_token_valid_returns (st : State) :
  ∃ valid st', cached_token_valid st = (inr valid, st').
Proof.
  unfold cached_token_valid. run_monad.
  repeat case_match; simplify_eq; eauto.
Qed.

(** C10.  [baasix_auth_status] never fails at the protocol level: whatever
    the configuration, the arguments and the state, the invocation returns a
    result with a single text element.  When [getAuthToken] throws (no
    authentication method, or a refused login) the body is the object that
    reports the caught message.  When it returns a token, the body is the
    status object: its [authenticated] field tells whether the token is
    non-empty, [auto_login_expires] is the ISO form of [authExpiry] or
    "N/A" when that is unset, and [auto_login_valid] is the outcome of the
    cache check; only when [authExpiry] is beyond the range of a date does
    formatting it throw, and the body then reports that caught error. *)
Theorem auth_status_never_fails (args : option Args) (st : State) :
  ∃ (body : string) (st' : State),
    CallTool cfg "baasix_auth_status" args st = (inr (text_result body), st')
    ∧ length (content (text_result body)) = 1
    ∧ (∀ (e : Exn) (st1 : State),
         getAuthToken cfg st = (inl e, st1) →
         st' = st1
         ∧ body = JSON_stringify_pretty (VObj [
             ("error", VStr (error_message e));
             ("auth_method", VStr "None");
             ("manual_token_provided", VBool (truthy (BAASIX_AUTH_TOKEN cfg)));
             ("configured_user", configured_user cfg)
           ]))
    ∧ (∀ (token : option string) (st1 : State),
         getAuthToken cfg st = (inr token, st1) →
         (truthy_time (authExpiry st1) = true →
          (max_time < default 0%N (authExpiry st1))%N →
          st' = st1
          ∧ body = JSON_stringify_pretty (VObj [
              ("error", VStr "Invalid time value");
              ("auth_method", VStr "None");
              ("manual_token_provided",
               VBool (truthy (BAASIX_AUTH_TOKEN cfg)));
              ("configured_user", configured_user cfg)
            ]))
         ∧ (truthy_time (authExpiry st1) = false
            ∨ (default 0%N (authExpiry st1) ≤ max_time)%N →
            ∀ (valid : bool) (st2 : State),
              cached_token_valid st1 = (inr valid, st2) →
              st' = st2
              ∧ body = JSON_stringify_pretty (VObj [
                  ("auth_method",
                   VStr (if truthy (BAASIX_AUTH_TOKEN cfg) then "Manual Token"
                         else if truthy (BAASIX_EMAIL cfg) then "Auto-login"
                         else "None"));
                  ("configured_user", configured_user cfg);
                  ("manual_token_provided",
                   VBool (truthy (BAASIX_AUTH_TOKEN cfg)));
                  ("authenticated", VBool (truthy token));
                  ("auto_login_expires",
                   VStr (if truthy_time (authExpiry st1)
                         then iso_format (default 0%N (authExpiry st1))
                         else "N/A"));
                  ("auto_login_valid", VBool valid)
                ]))).
Proof.
  rewrite (CallTool_runs_handler cfg _ _ args st auth_status_case).
  simpl. unfold handleAuthStatus, try_catch.
  unfold mbind at 1, M_bind at 1.
  destruct (getAuthToken cfg st) as [[e | token] st1] eqn:Htoken.
  - eexists _, _. split; [reflexivity |]. split; [reflexivity |].
    split; intros ? ? [= <- <-]. by split.
  - unfold mbind at 1, M_bind at 1, read_authExpiry at 1.
    unfold mbind at 1, M_bind at 1.
    destruct (cached_token_valid_returns st1) as (valid & st2 & Hvalid).
    destruct (truthy_time (authExpiry st1)) eqn:Hset.
    + unfold toISOString, sync.
      destruct (N.leb (default 0%N (authExpiry st1)) max_time) eqn:Hrange.
      * unfold mret at 1, M_ret at 1. unfold mbind at 1, M_bind at 1.
        rewrite Hvalid. unfold mret, M_ret.
        eexists _, _. split; [reflexivity |]. split; [reflexivity |].
        split; [intros ? ? [=] |]. intros token0 st0 [= <- <-]. split.
        -- intros _ Hbeyond. apply N.leb_le in Hrange. lia.
        -- intros _ valid0 st0 Hvalid0. rewrite Hvalid in Hvalid0.
           injection Hvalid0 as <- <-. rewrite Hset. split; reflexivity.
      * unfold throw. eexists _, _.
        split; [reflexivity |]. split; [reflexivity |].
        split; [intros ? ? [=] |]. intros token0 st0 [= <- <-]. split.
        -- intros _ _. split; reflexivity.
        -- intros [Hunset | Hwithin]; [congruence |].
           apply N.leb_gt in Hrange. lia.
    + unfold mret at 1, M_ret at 1. unfold mbind at 1, M_bind at 1.
      rewrite Hvalid. unfold mret, M_ret.
      eexists _, _. split; [reflexivity |]. split; [reflexivity |].
      split; [intros ? ? [=] |]. intros token0 st0 [= <- <-]. split.
      * intros Hset'. congruence.
      * intros _ valid0 st0 Hvalid0. rewrite Hvalid in Hvalid0.
        injection Hvalid0 as <- <-. rewrite Hset. split; reflexivity.
Qed.

End Validation.

(** ** The list-items scenario *)

Section ListItemsScenario.
Context `{Backend} `{JsRuntime} (cfg : Config).

Lemma list_items_case :
  lookup_handler "baasix_list_items" = Some (Proxy handleListItems_request).
Proof. reflexivity. Qed.

(** C5, as amended.  A fresh process in email/password mode serves
    [baasix_list_items]; the backend accepts the logins and answers the
    items request with 401 and then with data.  The invocation succeeds with
    that data.  Four outbound calls are made, in this order: a login, the
    items request, a second login (the refresh), the items request again
    with the new bearer token.  That is exactly two items requests and
    exactly two login exchanges. *)
Theorem list_items_recovers_from_one_401
    (a : Args) (endpoint : string) (options : Options)
    (w0 w1 w2 w3 w4 w5 w6 : World) (tok1 tok2 : option string) (t1 t2 : N)
    (rej : Rejection) (items : JsValue) :
  email_password_mode cfg →
  handleListItems_request (Some a) = inr (endpoint, options) →
  axios_post_login (login_url cfg) (BAASIX_EMAIL cfg) (BAASIX_PASSWORD cfg) w0
    = (inr tok1, w1) →
  truthy tok1 = true →
  Date_now w1 = (t1, w2) →
  axios_request endpoint (request_config cfg tok1 options) w2 = (inl rej, w3) →
  status_is (reject rej) 401 = true →
  axios_post_login (login_url cfg) (BAASIX_EMAIL cfg) (BAASIX_PASSWORD cfg) w3
    = (inr tok2, w4) →
  truthy tok2 = true →
  Date_now w4 = (t2, w5) →
  axios_request endpoint
    (set_authorization tok2 (request_config cfg tok1 options)) w5
    = (inr items, w6) →
  let run := CallTool cfg "baasix_list_items" (Some a) (fresh w0) in
  run.1 = inr (text_result (JSON_stringify_pretty items))
  ∧ calls run.2
    = [login_call cfg;
       ApiCall endpoint (request_config cfg tok1 options);
       login_call cfg;
       ApiCall endpoint
         (set_authorization tok2 (request_config cfg tok1 options))]
  ∧ api_count run.2 = 2
  ∧ login_count run.2 = 2.
Proof.
  intros Hmode Hrequest Hlogin1 Htok1 Hnow1 Hreply1 H401 Hlogin2 Htok2 Hnow2
         Hreply2 run.
  destruct Hmode as (Hexplicit & Hemail & Hpassword).
  assert (getAuthToken cfg (fresh w0)
          = (inr tok1,
             {| authToken := tok1; authExpiry := Some (t1 + 3600000)%N;
                world := w2; calls := [] ++ [login_call cfg] |})) as Hfirst.
  { apply (getAuthToken_login_ok cfg (fresh w0) (fresh w0) tok1 t1 w1 w2);
      auto. apply miss_unset. reflexivity. }
  pose proof (baasixRequest_retried cfg endpoint options _ _ tok1 rej w3
                Hfirst Hreply1) as Hrun.
  cbn [authToken] in Hrun. rewrite H401, Htok1, Hexplicit in Hrun.
  specialize (Hrun eq_refl). cbv zeta in Hrun.
  match type of Hrun with
  | context [getAuthToken cfg ?s] =>
      rewrite (getAuthToken_login_ok cfg s s tok2 t2 w4 w5 Hexplicit
                 (miss_unset s eq_refl) Hemail Hpassword Hlogin2 Hnow2) in Hrun
  end.
  rewrite Htok2 in Hrun. cbn [world] in Hrun. rewrite Hreply2 in Hrun.
  assert (run = (inr (text_result (JSON_stringify_pretty items)),
                 after_call
                   (ApiCall endpoint
                      (set_authorization tok2 (request_config cfg tok1 options)))
                   w6
                   {| authToken := tok2; authExpiry := Some (t2 + 3600000)%N;
                      world := w5;
                      calls := ([] ++ [login_call cfg])
                               ++ [ApiCall endpoint
                                     (request_config cfg tok1 options)]
                               ++ [login_call cfg] |})) as ->.
  { subst run.
    rewrite (CallTool_runs_handler cfg _ _ _ _ list_items_case).
    simpl. unfold proxy. rewrite Hrequest. unfold sync.
    unfold mbind, M_bind, mret, M_ret. simpl.
    rewrite Hrun. reflexivity. }
  repeat split.
Qed.

End ListItemsScenario.

(** ** Configuration *)

Lemma override_from_env_other (env config : gmap string string)
    (key other : string) :
  key ≠ other →
  ConfigJs.override_from_env env config key !! other = config !! other.
Proof.
  intros Hne. unfold ConfigJs.override_from_env.
  destruct (truthy (env !! key)); [| reflexivity].
  destruct (env !! key); [| reflexivity].
  by apply lookup_insert_ne.
Qed.

Lemma override_from_env_absent (env config : gmap string string)
    (key : string) :
  env !! key = None → ConfigJs.override_from_env env config key = config.
Proof. unfold ConfigJs.override_from_env. by intros ->. Qed.

(** A key that nothing supplies keeps its default. *)
Lemma loadEnvironmentConfig_default (h : ConfigJs.Host) (key : string) :
  not_supplied h key →
  ConfigJs.loadEnvironmentConfig ConfigJs.no_options h !! key
  = ConfigJs.DEFAULT_CONFIG !! key.
Proof.
  intros [Henv Hfile]. unfold ConfigJs.loadEnvironmentConfig. simpl.
  set (base := ConfigJs.spread ∅ ConfigJs.DEFAULT_CONFIG).
  assert (base !! key = ConfigJs.DEFAULT_CONFIG !! key) as Hbase.
  { unfold base, ConfigJs.spread. by rewrite (right_id_L ∅ (∪)). }
  set (loaded := if ConfigJs.env_file_exists h then _ else _).
  assert (loaded !! key = ConfigJs.DEFAULT_CONFIG !! key) as Hloaded.
  { unfold loaded. destruct (ConfigJs.env_file_exists h); [| exact Hbase].
    destruct (ConfigJs.dotenv_parsed h) as [parsed |] eqn:Hparsed;
      [| exact Hbase].
    unfold ConfigJs.spread at 1. rewrite lookup_union_r; [exact Hbase |].
    by apply Hfile. }
  rewrite <- Hloaded. clear Hloaded Hbase.
  generalize loaded. clear loaded base.
  assert (∀ keys config,
            foldl (ConfigJs.override_from_env (ConfigJs.process_env h))
              config keys !! key = config !! key) as Hfold.
  { induction keys as [| k keys IH]; intros config; [reflexivity |].
    simpl. rewrite IH.
    destruct (decide (k = key)) as [-> | Hne].
    - by rewrite override_from_env_absent.
    - by apply override_from_env_other. }
  intros config. apply (Hfold ConfigJs.envVars).
Qed.

Section NoCredentials.
Context `{Backend} `{JsRuntime}.

(** C8.  What the code does where the claim expects an authentication
    error.  Configuring only [BAASIX_URL] does not leave the server without
    credentials: a key that neither the environment nor the [.env] file
    supplies keeps its default, so the server runs in email/password mode
    with [admin@baasix.com] and [admin@123] and logs in with them.  The
    outcome the claim describes is reached only when the configuration does
    hold neither a token nor a complete email/password pair, and no token is
    cached: every proxied request then fails with the
    "No authentication method available" error before any call is made, and
    a tool that only proxies reports it as an [InternalError] with that
    message. *)
Theorem only_url_falls_back_to_default_credentials :
  (∀ h : ConfigJs.Host,
     not_supplied h "BAASIX_AUTH_TOKEN" →
     not_supplied h "BAASIX_EMAIL" →
     not_supplied h "BAASIX_PASSWORD" →
     BAASIX_AUTH_TOKEN (startup h) = None
     ∧ BAASIX_EMAIL (startup h) = Some "admin@baasix.com"
     ∧ BAASIX_PASSWORD (startup h) = Some "admin@123"
     ∧ email_password_mode (startup h))
  ∧ (∀ (cfg : Config) (st : State),
       truthy (BAASIX_AUTH_TOKEN cfg) = false →
       truthy (BAASIX_EMAIL cfg) && truthy (BAASIX_PASSWORD cfg) = false →
       truthy (authToken st) = false →
       (∀ (endpoint : string) (options : Options),
          baasixRequest cfg endpoint options st
          = (inl NoAuthenticationMethod, st))
       ∧ (∀ (n : string) (request : option Args → string + Request)
            (args : option Args) (req : Request),
            lookup_handler n = Some (Proxy request) →
            request args = inr req →
            CallTool cfg n args st
            = (inl (McpError InternalError
                      ("Tool execution failed: " +:+ no_auth_message)), st))).
Proof.
  split.
  - intros h Htoken Hemail Hpassword.
    unfold startup, module_config, email_password_mode. simpl.
    rewrite !loadEnvironmentConfig_default by assumption.
    repeat split.
  - intros cfg st Hexplicit Hcred Hcache.
    assert (∀ endpoint options,
              baasixRequest cfg endpoint options st
              = (inl NoAuthenticationMethod, st)) as Hrequest.
    { intros endpoint options. apply baasixRequest_no_token.
      apply getAuthToken_no_method; auto.
      apply miss_unset. by rewrite Hcache. }
    split; [exact Hrequest |].
    intros n request args [endpoint options] Hcase Hreq.
    rewrite (CallTool_runs_handler cfg n _ args st Hcase).
    simpl. unfold proxy. rewrite Hreq. unfold sync.
    unfold mbind, M_bind, mret, M_ret. simpl.
    rewrite Hrequest. reflexivity.
Qed.

End NoCredentials.

Section StartupValidation.
Variable url_parses : string → bool.

(** [validateConfig] finds nothing exactly when the URL parses and a
    credential is present. *)
Lemma validateConfig_accepts (config : gmap string string) :
  ConfigJs.errors (ConfigJs.validateConfig url_parses config) = []
  ↔ url_ok url_parses config ∧ credentials_ok config.
Proof.
  unfold url_ok, credentials_ok, ConfigJs.validateConfig.
  destruct (config !! "BAASIX_URL") as [u |]; simpl;
    [destruct (truthy_string u) eqn:Hu; [destruct (url_parses u) eqn:Hp |] |];
    destruct (truthy (config !! "BAASIX_AUTH_TOKEN"));
    destruct (truthy (config !! "BAASIX_EMAIL"));
    destruct (truthy (config !! "BAASIX_PASSWORD"));
    simpl;
    (split;
     [intros Hnil; first [discriminate Hnil | split; [eauto | auto]]
     | intros [(u' & Hsome & Htruthy & Hparses) [Hc | [Hc1 Hc2]]];
       simplify_eq; try congruence; try reflexivity]).
Qed.

Lemma isValid_errors (config : gmap string string) :
  ConfigJs.isValid (ConfigJs.validateConfig url_parses config) = true
  ↔ ConfigJs.errors (ConfigJs.validateConfig url_parses config) = [].
Proof.
  change (ConfigJs.isValid (ConfigJs.validateConfig url_parses config))
    with (Nat.eqb
            (length (ConfigJs.errors
                       (ConfigJs.validateConfig url_parses config))) 0).
  destruct (ConfigJs.errors (ConfigJs.validateConfig url_parses config));
    simpl; split; congruence.
Qed.


End StartupValidation.

Section StartupWithoutValidation.
Context `{Backend} `{JsRuntime}.


End StartupWithoutValidation.

(** ** Concrete runs of the dispatcher and of the configuration loader *)

Module Checks.
Import Script Scenario.



(** C5, counterexample.  The scenario of the claim, run from a fresh
    process: the result is a success and the items endpoint is called twice,
    but two login exchanges are made, not one: the first call of
    [getAuthToken] logs in, and the retry path logs in again after it has
    cleared the token. *)
Lemma list_items_scenario_logs_in_twice :
  let run := CallTool login_cfg "baasix_list_items" products
               (fresh expired_once) in
  email_password_mode login_cfg
  ∧ run.1 = inr (text_result (JSON_stringify_pretty (VArr [])))
  ∧ api_count_to "/items/products?page=1&limit=10" run.2 = 2
  ∧ api_count run.2 = 2
  ∧ login_count run.2 = 2
  ∧ login_count run.2 ≠ 1.
Proof.
  cbv zeta. repeat split; try reflexivity.
  vm_compute. discriminate.
Qed.

Lemma list_items_recovers_from_one_401_witness :
  let run := CallTool login_cfg "baasix_list_items" products
               (fresh expired_once) in
  api_count run.2 = 2 ∧ login_count run.2 = 2.
Proof.
  pose proof (list_items_recovers_from_one_401 login_cfg
                [("collection", VStr "products")]
                "/items/products?page=1&limit=10" no_request_options
                expired_once
                {| logins := [inr (Some "t2")];
                   replies := [inl unauthorized; inr (VArr [])];
                   clock := 1000 |}
                {| logins := [inr (Some "t2")];
                   replies := [inl unauthorized; inr (VArr [])];
                   clock := 1000 |}
                {| logins := [inr (Some "t2")]; replies := [inr (VArr [])];
                   clock := 1000 |}
                {| logins := []; replies := [inr (VArr [])]; clock := 1000 |}
                {| logins := []; replies := [inr (VArr [])]; clock := 1000 |}
                {| logins := []; replies := []; clock := 1000 |}
                (Some "t1") (Some "t2") 1000%N 1000%N unauthorized (VArr [])
                (conj eq_refl (conj eq_refl eq_refl))
                eq_refl eq_refl eq_refl eq_refl eq_refl eq_refl eq_refl
                eq_refl eq_refl eq_refl) as Hrun.
  cbv zeta in Hrun. cbv zeta.
  destruct Hrun as (_ & _ & Hapi & Hlogin). by split.
Defined.

(** C6, counterexample.  [baasix_get_schema] is registered and its schema
    requires [collection]; invoked with an empty argument object it is not
    refused: the handler runs, requests [/schemas/undefined] from the
    backend and the invocation succeeds. *)
Lemma get_schema_without_collection_is_served :
  let run := CallTool login_cfg "baasix_get_schema" (Some [])
               (fresh healthy) in
  registered "baasix_get_schema" = true
  ∧ tools !! 1%nat = Some (tool "baasix_get_schema" ["collection"])
  ∧ assoc "collection" ([] : Args) = None
  ∧ run.1 = inr (text_result (JSON_stringify_pretty (VArr [])))
  ∧ api_count_to "/schemas/undefined" run.2 = 1
  ∧ ∀ message, run.1 ≠ inl (McpError InvalidParams message).
Proof.
  cbv zeta. repeat split; try reflexivity.
  intros message. vm_compute. discriminate.
Qed.

Lemma missing_required_field_reaches_handler_witness :
  ∃ h, lookup_handler "baasix_get_schema" = Some h
       ∧ CallTool login_cfg "baasix_get_schema" (Some []) (fresh healthy)
         = reported (run_handler login_cfg h (Some []) (fresh healthy)).
Proof.
  destruct (proj1 (missing_required_field_reaches_handler login_cfg)
              "baasix_get_schema" (Some []) (fresh healthy) eq_refl)
    as (h & Hcase & Hrun & _).
  exists h. by split.
Defined.

Lemma unknown_tool_is_MethodNotFound_witness :
  CallTool login_cfg "baasix_drop_everything" None (fresh healthy)
  = (inl (McpError MethodNotFound "Unknown tool: baasix_drop_everything"),
     fresh healthy).
Proof.
  apply (unknown_tool_is_MethodNotFound login_cfg "baasix_drop_everything"
           None (fresh healthy)).
  vm_compute. reflexivity.
Defined.

(** C8, the failing input.  Only [BAASIX_URL] is configured.  The server's
    configuration then holds the default email and password, and an
    authenticated tool does not fail with an authentication error: it logs in
    with the defaults and, the backend accepting them, succeeds. *)
Lemma only_url_logs_in_with_the_defaults :
  let cfg := startup only_url in
  let run := CallTool cfg "baasix_list_items" products (fresh healthy) in
  BAASIX_AUTH_TOKEN cfg = None
  ∧ BAASIX_EMAIL cfg = Some "admin@baasix.com"
  ∧ BAASIX_PASSWORD cfg = Some "admin@123"
  ∧ head (calls run.2)
    = Some (LoginCall "http://localhost:8056/auth/login"
              (Some "admin@baasix.com") (Some "admin@123"))
  ∧ run.1 = inr (text_result (JSON_stringify_pretty (VArr [])))
  ∧ ∀ e, run.1 ≠ inl e.
Proof.
  cbv zeta. repeat split; try reflexivity.
  intros e. vm_compute. discriminate.
Qed.

Lemma only_url_falls_back_to_default_credentials_witness :
  email_password_mode (startup only_url).
Proof.
  apply (proj1 only_url_falls_back_to_default_credentials only_url);
    (split; [reflexivity | intros parsed; discriminate]).
Defined.



Lemma auth_status_never_fails_witness :
  ∃ body st',
    CallTool login_cfg "baasix_auth_status" None (fresh healthy)
    = (inr (text_result body), st')
    ∧ body = JSON_stringify_pretty (VObj [
        ("auth_method", VStr "Auto-login");
        ("configured_user", VStr "a@b.com");
        ("manual_token_provided", VBool false);
        ("authenticated", VBool true);
        ("auto_login_expires", VStr (iso_format 3601000));
        ("auto_login_valid", VBool true)
      ]).
Proof.
  destruct (auth_status_never_fails login_cfg None (fresh healthy))
    as (body & st' & Hrun & _ & _ & Hstatus).
  exists body, st'. split; [exact Hrun |].
  destruct (Hstatus (Some "t1") (getAuthToken login_cfg (fresh healthy)).2)
    as [_ Hreport]; [reflexivity |].
  destruct (Hreport) with (valid := true)
                          (st2 := (getAuthToken login_cfg (fresh healthy)).2)
    as [_ ->].
  - right. apply N.leb_le. reflexivity.
  - reflexivity.
  - reflexivity.
Defined.

End Checks.

(** * Further properties of the code *)

(** ** config.js: precedence of the three sources *)

Lemma foldl_override_lookup (env : gmap string string) (keys : list string)
    (config : gmap string string) (key : string) :
  foldl (ConfigJs.override_from_env env) config keys !! key
  = if bool_decide (key ∈ keys) && truthy (env !! key)
    then env !! key else config !! key.
Proof.
  revert config. induction keys as [| k keys IH]; intros config.
  - reflexivity.
  - cbn [foldl]. rewrite IH.
    destruct (decide (k = key)) as [-> | Hne].
    + rewrite (bool_decide_eq_true_2 (key ∈ key :: keys)) by left.
      unfold ConfigJs.override_from_env.
      destruct (truthy (env !! key)) eqn:Htruthy.
      * destruct (bool_decide (key ∈ keys)); [reflexivity |]. simpl.
        destruct (env !! key) as [v |]; [| discriminate Htruthy].
        by rewrite lookup_insert_eq.
      * by rewrite !andb_false_r.
    + rewrite override_from_env_other by assumption.
      assert (bool_decide (key ∈ k :: keys) = bool_decide (key ∈ keys)) as ->.
      { apply bool_decide_ext. rewrite elem_of_cons.
        split; [intros [-> | Hin]; [congruence | exact Hin] | by right]. }
      reflexivity.
Qed.

(** X1.  A non-empty value of the process environment for one of the four
    [BAASIX_*] variables is the value of the loaded configuration, whatever
    the defaults and the [.env] file say. *)
Theorem process_environment_wins
    (options : ConfigJs.LoadOptions) (h : ConfigJs.Host) (key v : string) :
  ConfigJs.processEnv options = true →
  key ∈ ConfigJs.envVars →
  ConfigJs.process_env h !! key = Some v →
  truthy_string v = true →
  ConfigJs.loadEnvironmentConfig options h !! key = Some v.
Proof.
  intros Hprocess Hkey Henv Htruthy.
  unfold ConfigJs.loadEnvironmentConfig. rewrite Hprocess.
  rewrite foldl_override_lookup.
  rewrite (bool_decide_eq_true_2 _ Hkey), Henv. simpl. by rewrite Htruthy.
Qed.

(** X2.  A value that the [.env] file gives to a key is the value of the
    loaded configuration, an empty value included (so the file can blank a
    default), unless the process environment wins: that is, when the
    process environment is not consulted, or the key is not one of the four
    variables, or the environment's value is missing or empty. *)
Theorem env_file_overrides_defaults
    (options : ConfigJs.LoadOptions) (h : ConfigJs.Host)
    (parsed : gmap string string) (key v : string) :
  reads_env_file options h = true →
  ConfigJs.dotenv_parsed h = Some parsed →
  parsed !! key = Some v →
  ConfigJs.processEnv options = false ∨ key ∉ ConfigJs.envVars
    ∨ truthy (ConfigJs.process_env h !! key) = false →
  ConfigJs.loadEnvironmentConfig options h !! key = Some v.
Proof.
  unfold reads_env_file. intros Hreads Hparsed Hvalue Hquiet.
  unfold ConfigJs.loadEnvironmentConfig. rewrite Hreads, Hparsed.
  assert (∀ base, ConfigJs.spread base parsed !! key = Some v) as Hlayer.
  { intros base. unfold ConfigJs.spread. by apply lookup_union_Some_l. }
  destruct (ConfigJs.processEnv options); [| apply Hlayer].
  rewrite foldl_override_lookup.
  destruct Hquiet as [? | [Hout | Hempty]]; [done | |].
  - rewrite (bool_decide_eq_false_2 _ Hout). apply Hlayer.
  - rewrite Hempty, andb_false_r. apply Hlayer.
Qed.

(** X3.  An empty value in the process environment, or a variable outside
    the four, never reaches the configuration: such a key has the value the
    defaults and the [.env] file give it, as if the process environment were
    not consulted. *)
Theorem empty_environment_value_is_ignored
    (options : ConfigJs.LoadOptions) (h : ConfigJs.Host) (key : string) :
  key ∉ ConfigJs.envVars ∨ truthy (ConfigJs.process_env h !! key) = false →
  ConfigJs.loadEnvironmentConfig options h !! key
  = ConfigJs.loadEnvironmentConfig
      {| ConfigJs.envPath := ConfigJs.envPath options;
         ConfigJs.useDefaults := ConfigJs.useDefaults options;
         ConfigJs.processEnv := false |} h !! key.
Proof.
  intros Hquiet. unfold ConfigJs.loadEnvironmentConfig.
  cbn [ConfigJs.envPath ConfigJs.useDefaults ConfigJs.processEnv].
  destruct (ConfigJs.processEnv options); [| reflexivity].
  rewrite foldl_override_lookup.
  destruct Hquiet as [Hout | Hempty].
  - by rewrite (bool_decide_eq_false_2 _ Hout).
  - by rewrite Hempty, andb_false_r.
Qed.

(** ** config.js: what validation reports *)

Ltac not_listed H :=
  repeat first
    [ apply elem_of_nil in H; destruct H
    | apply elem_of_cons in H; destruct H as [H | H]; [discriminate H |] ].

(** X4.  [validateConfig] reports at most two errors: the two complaints
    about [BAASIX_URL] (missing, not a URL) never come together.  It warns
    exactly when a token and a complete email/password pair are both
    present, and then it does not report the credentials as missing. *)
Theorem validateConfig_report_shape
    (url_parses : string → bool) (config : gmap string string) :
  let v := ConfigJs.validateConfig url_parses config in
  (length (ConfigJs.errors v) ≤ 2)%nat
  ∧ ¬ ("BAASIX_URL is required" ∈ ConfigJs.errors v
       ∧ "BAASIX_URL must be a valid URL" ∈ ConfigJs.errors v)
  ∧ (ConfigJs.warnings v ≠ []
     ↔ truthy (config !! "BAASIX_AUTH_TOKEN") = true
       ∧ truthy (config !! "BAASIX_EMAIL") = true
       ∧ truthy (config !! "BAASIX_PASSWORD") = true)
  ∧ (ConfigJs.warnings v ≠ [] →
     "Either BAASIX_AUTH_TOKEN or both BAASIX_EMAIL and BAASIX_PASSWORD must be provided"
       ∉ ConfigJs.errors v).
Proof.
  unfold ConfigJs.validateConfig.
  destruct (config !! "BAASIX_URL") as [u |]; simpl;
    [destruct (truthy_string u); [destruct (url_parses u) |] |];
    destruct (truthy (config !! "BAASIX_AUTH_TOKEN"));
    destruct (truthy (config !! "BAASIX_EMAIL"));
    destruct (truthy (config !! "BAASIX_PASSWORD"));
    simpl;
    (split; [lia |]);
    (split; [intros [Hrequired Hsyntax];
             first [by not_listed Hrequired | by not_listed Hsyntax] |]);
    (split; [split; [intros Hwarned; first [done | by repeat split]
                    | intros (? & ? & ?); first [done | discriminate]] |]);
    intros Hwarned; first [done | intros Hlisted; by not_listed Hlisted].
Qed.

(** X5.  Without a [.env] file the defaults together with the process
    environment always give a URL and a complete email/password pair, so
    [createConfig] with the default options can fail on one ground only: a
    [BAASIX_URL] that does not parse. *)
Theorem createConfig_without_env_file
    (url_parses : string → bool) (h : ConfigJs.Host) :
  ConfigJs.env_file_exists h = false →
  (∀ u, ConfigJs.loadEnvironmentConfig ConfigJs.no_options h !! "BAASIX_URL"
        = Some u → url_parses u = true) →
  ConfigJs.createConfig url_parses ConfigJs.no_options h
  = inr (ConfigJs.loadEnvironmentConfig ConfigJs.no_options h).
Proof.
  intros Hnofile Hparses.
  assert (∀ key, key ∈ ConfigJs.envVars →
            is_Some (ConfigJs.DEFAULT_CONFIG !! key) →
            truthy (ConfigJs.DEFAULT_CONFIG !! key) = true →
            ∃ v, ConfigJs.loadEnvironmentConfig ConfigJs.no_options h !! key
                 = Some v ∧ truthy_string v = true) as Hpresent.
  { intros key Hkey [d Hdefault] Htruthy.
    unfold ConfigJs.loadEnvironmentConfig, ConfigJs.no_options.
    cbn [ConfigJs.useDefaults ConfigJs.envPath ConfigJs.processEnv truthy orb].
    rewrite Hnofile.
    rewrite foldl_override_lookup, (bool_decide_eq_true_2 _ Hkey).
    unfold ConfigJs.spread at 1. rewrite (right_id_L ∅ (∪)). simpl.
    destruct (truthy (ConfigJs.process_env h !! key)) eqn:Henv.
    - destruct (ConfigJs.process_env h !! key) as [v |]; [eauto | done].
    - rewrite Hdefault in Htruthy |- *. eauto. }
  unfold ConfigJs.createConfig.
  set (config := ConfigJs.loadEnvironmentConfig ConfigJs.no_options h) in *.
  destruct (Hpresent "BAASIX_URL") as (u & Hurl & Hu);
    [set_solver | by eexists | reflexivity |].
  destruct (Hpresent "BAASIX_EMAIL") as (e & Hemail & He);
    [set_solver | by eexists | reflexivity |].
  destruct (Hpresent "BAASIX_PASSWORD") as (p & Hpassword & Hp);
    [set_solver | by eexists | reflexivity |].
  assert (ConfigJs.isValid (ConfigJs.validateConfig url_parses config) = true)
    as ->; [| reflexivity].
  apply isValid_errors, validateConfig_accepts. split.
  - exists u. auto.
  - right. by rewrite Hemail, Hpassword.
Qed.

(** ** getAuthToken and baasixRequest *)

Section TokenAndProxy.
Context `{Backend} (cfg : Config).

Lemma api_count_after (st st' : State) (made : list Call) :
  calls st' = calls st ++ made →
  api_count st' = (api_count st + length (filter (λ c, is_api c = true) made))%nat
  ∧ login_count st'
    = (login_count st + length (filter (λ c, is_login c = true) made))%nat.
Proof.
  intros Hcalls. unfold api_count, login_count.
  by rewrite Hcalls, !filter_app, !length_app.
Qed.

(** X6.  Without an explicit token, the token [getAuthToken] returns is the
    one the cache holds when it returns; a call that fails (refused login,
    no credentials) leaves both cache variables as they were, so a stale
    token is kept; and no call of [getAuthToken] makes a proxied request or
    more than one login exchange. *)
Theorem getAuthToken_keeps_cache_coherent (st : State) :
  truthy (BAASIX_AUTH_TOKEN cfg) = false →
  (∀ (token : option string) (st' : State),
     getAuthToken cfg st = (inr token, st') → authToken st' = token)
  ∧ (∀ (e : Exn) (st' : State),
       getAuthToken cfg st = (inl e, st') → same_cache st st')
  ∧ (∀ (r : Exn + option string) (st' : State),
       getAuthToken cfg st = (r, st') →
       api_count st' = api_count st
       ∧ (login_count st' ≤ login_count st + 1)%nat).
Proof.
  intros Hexplicit. split; [| split].
  - intros token st'. unfold getAuthToken, cached_token_valid.
    rewrite Hexplicit. run_monad. intros Hrun.
    repeat case_match; simplify_eq; reflexivity.
  - intros e st'. unfold getAuthToken, cached_token_valid, same_cache.
    rewrite Hexplicit. run_monad. intros Hrun.
    repeat case_match; simplify_eq; by split.
  - intros r st' Hrun.
    apply getAuthToken_calls in Hrun as [Hcalls | Hcalls].
    + unfold api_count, login_count. rewrite Hcalls. lia.
    + apply (api_count_after st st' [login_call cfg]) in Hcalls as [-> ->].
      simpl. lia.
Qed.

(** X8.  [baasixRequest] fails in two ways only.  Either the first
    [getAuthToken] failed: its authentication error is passed on as it is,
    with the state it left, and the backend endpoint was not contacted.  Or
    the error is an [ApiError], a message that starts with
    "Baasix API Error: ". *)
Theorem baasixRequest_failure_kinds
    (endpoint : string) (options : Options) (st st' : State) (e : Exn) :
  baasixRequest cfg endpoint options st = (inl e, st') →
  (getAuthToken cfg st = (inl e, st') ∧ is_AuthenticationError e
   ∧ api_count st' = api_count st)
  ∨ ∃ upstream, e = ApiError upstream.
Proof.
  unfold baasixRequest. unfold mbind at 1, M_bind at 1.
  destruct (getAuthToken cfg st) as [[e0 | token] st1] eqn:Htoken.
  - intros [= <- <-]. left. split; [reflexivity |].
    split; [by eapply getAuthToken_throws |].
    apply getAuthToken_calls in Htoken as [Hcalls | Hcalls].
    + unfold api_count. by rewrite Hcalls.
    + apply (api_count_after st st1 [login_call cfg]) in Hcalls as [-> _].
      simpl. lia.
  - run_monad. intros Hrun. right.
    repeat case_match; simplify_eq; eauto.
Qed.

(** X9.  The headers of the first request: a header the caller passes in
    [options.headers] is sent as passed, [Authorization] included; without
    such a header, [Authorization] is "Bearer <token>" when the token is
    non-empty and is absent otherwise, and [Content-Type] is
    [application/json]. *)
Theorem request_config_headers (token : option string) (options : Options) :
  (∀ key value,
     opt_headers options !! key = Some value →
     headers (request_config cfg token options) !! key = Some value)
  ∧ (opt_headers options !! "Authorization" = None →
     headers (request_config cfg token options) !! "Authorization"
     = if truthy token then Some (bearer token) else None)
  ∧ (opt_headers options !! "Content-Type" = None →
     headers (request_config cfg token options) !! "Content-Type"
     = Some "application/json").
Proof.
  unfold request_config. cbn [headers]. repeat split.
  - intros key value Hpassed.
    rewrite <- (assoc_L (∪)). by apply lookup_union_Some_l.
  - intros Hnone. rewrite <- (assoc_L (∪)), lookup_union_r by assumption.
    destruct (truthy token).
    + apply lookup_union_Some_l. apply lookup_insert_eq.
    + rewrite (left_id_L ∅ (∪)). by rewrite lookup_insert_ne.
  - intros Hnone. rewrite <- (assoc_L (∪)), lookup_union_r by assumption.
    destruct (truthy token).
    + rewrite lookup_union_r by (by rewrite lookup_insert_ne).
      apply lookup_insert_eq.
    + rewrite (left_id_L ∅ (∪)). apply lookup_insert_eq.
Qed.

(** X10.  The retried request is the first request with one header
    replaced: [Authorization] is "Bearer <new token>" even when the caller
    had passed an [Authorization] header of its own (which the first request
    sent); base URL, method, body and every other header are the same. *)
Theorem retry_replaces_authorization_only
    (token newToken : option string) (options : Options) :
  let first := request_config cfg token options in
  let retry := set_authorization newToken first in
  headers retry !! "Authorization" = Some (bearer newToken)
  ∧ (∀ key, key ≠ "Authorization" →
       headers retry !! key = headers first !! key)
  ∧ baseURL retry = baseURL first
  ∧ method retry = method first
  ∧ data retry = data first
  ∧ (∀ value, opt_headers options !! "Authorization" = Some value →
       headers first !! "Authorization" = Some value).
Proof.
  cbv zeta. unfold set_authorization. cbn [headers baseURL method data].
  repeat split.
  - apply lookup_insert_eq.
  - intros key Hother. by apply lookup_insert_ne.
  - intros value Hpassed. unfold request_config. cbn [headers].
    rewrite <- (assoc_L (∪)). by apply lookup_union_Some_l.
Qed.

End TokenAndProxy.

(** ** The dispatcher and the handlers *)

Lemma assoc_elem_of {A : Type} (key : string) (l : list (string * A)) (v : A) :
  assoc key l = Some v → (key, v) ∈ l.
Proof.
  induction l as [| [k x] l IH]; simpl; [discriminate |].
  destruct (String.eqb_spec k key) as [-> | Hne].
  - intros [= ->]. left.
  - intros Hfound. right. by apply IH.
Qed.

Section Policy.
Context `{JsRuntime}.

Lemma cases_argument_policy : Forall argument_policy cases.
Proof.
  unfold cases.
  repeat (apply Forall_cons; split;
          [first [exact I
                 | by (eexists; intros args; reflexivity)
                 | reflexivity] |]).
  apply Forall_nil. exact I.
Qed.

End Policy.

Section DispatcherOutcomes.
Context `{Backend} `{JsRuntime} (cfg : Config).

(** X11.  The advertised catalog and the [switch] agree: a name is
    advertised exactly when the dispatcher has a handler for it, and no name
    is advertised twice. *)
Theorem catalog_matches_switch :
  (∀ n : string, registered n = true ↔ is_Some (lookup_handler n))
  ∧ NoDup (map name tools).
Proof.
  split.
  - intros n. split.
    + intros Hreg. destruct (registered_has_case n Hreg) as [h ->]. by eexists.
    + intros [h Hcase]. destruct (registered n) eqn:Hreg; [reflexivity |].
      rewrite (unregistered_no_case n Hreg) in Hcase. discriminate.
  - apply (bool_decide_unpack (NoDup (map name tools))). vm_compute. exact I.
Qed.

(** X12.  Whatever goes wrong, an invocation fails with a protocol error of
    one of two codes: [MethodNotFound] for a name outside the catalog, with
    the state untouched, and [InternalError], whose message is
    "Tool execution failed: " followed by the handler's error message, for
    a tool of the catalog.  No other thrown value escapes. *)
Theorem CallTool_failure_codes
    (n : string) (args : option Args) (st st' : State) (e : Exn) :
  CallTool cfg n args st = (inl e, st') →
  (registered n = false
   ∧ e = McpError MethodNotFound ("Unknown tool: " +:+ n) ∧ st' = st)
  ∨ (registered n = true
     ∧ ∃ message,
         e = McpError InternalError ("Tool execution failed: " +:+ message)).
Proof.
  destruct (registered n) eqn:Hreg.
  - destruct (registered_has_case n Hreg) as [h Hcase].
    rewrite (CallTool_runs_handler cfg n h args st Hcase). unfold reported.
    destruct (run_handler cfg h args st) as [[e0 | result] st1];
      intros [= <- <-]. right. eauto.
  - unfold CallTool, try_catch. rewrite (unregistered_no_case n Hreg).
    simpl. intros [= <- <-]. left. auto.
Qed.

(** X13.  Every successful invocation returns a result with exactly one
    element, of type [text].  For a tool that only proxies, the text is the
    pretty-printed JSON of the data the backend returned, unchanged. *)
Theorem CallTool_result_shape
    (n : string) (args : option Args) (st st' : State) (r : ToolResult) :
  CallTool cfg n args st = (inr r, st') →
  (∃ body, r = text_result body)
  ∧ (∀ request, lookup_handler n = Some (Proxy request) →
       ∃ (req : Request) (data : JsValue),
         request args = inr req
         ∧ baasixRequest cfg req.1 req.2 st = (inr data, st')
         ∧ r = text_result (JSON_stringify_pretty data)).
Proof.
  intros Hrun.
  destruct (lookup_handler n) as [h |] eqn:Hcase;
    [| unfold CallTool, try_catch in Hrun; rewrite Hcase in Hrun;
       discriminate Hrun].
  rewrite (CallTool_runs_handler cfg n h args st Hcase) in Hrun.
  unfold reported in Hrun.
  destruct (run_handler cfg h args st) as [[e0 | result] st1] eqn:Hhandler;
    [discriminate Hrun |].
  injection Hrun as -> ->.
  assert (∀ request, h = Proxy request →
            ∃ (req : Request) (data : JsValue),
              request args = inr req
              ∧ baasixRequest cfg req.1 req.2 st = (inr data, st')
              ∧ r = text_result (JSON_stringify_pretty data)) as Hproxy.
  { intros request ->. simpl in Hhandler. unfold proxy, sync in Hhandler.
    unfold mbind at 1, M_bind at 1 in Hhandler.
    destruct (request args) as [message | req]; [discriminate Hhandler |].
    simpl in Hhandler. unfold mbind, M_bind in Hhandler.
    destruct (baasixRequest cfg req.1 req.2 st) as [[e1 | data] st2]
      eqn:Hrequest; [discriminate Hhandler |].
    injection Hhandler as <- <-. by exists req, data. }
  split.
  - destruct h as [request | | |]; simpl in Hhandler.
    + destruct (Hproxy request eq_refl) as (req & data & _ & _ & ->). eauto.
    + destruct (handleServerInfo_returns cfg args st) as (b & s & Heq).
      rewrite Heq in Hhandler. injection Hhandler as <- <-. eauto.
    + destruct (handleAuthStatus_returns cfg args st) as (b & s & Heq).
      rewrite Heq in Hhandler. injection Hhandler as <- <-. eauto.
    + destruct (handleRefreshAuth_returns cfg args st) as (b & s & Heq).
      rewrite Heq in Hhandler. injection Hhandler as <- <-. eauto.
  - intros request [= ->]. by apply Hproxy.
Qed.

(** X14.  Invoked without arguments, a tool that only proxies either does
    not look at its arguments at all (the five tools of
    [argument_free_tools]) or fails with an [InternalError] that carries
    the TypeError of destructuring [undefined], before any call is made and
    with the state untouched. *)
Theorem invocation_without_arguments
    (n : string) (request : option Args → string + Request) (st : State) :
  lookup_handler n = Some (Proxy request) →
  (n ∈ argument_free_tools → ∃ req, ∀ args, request args = inr req)
  ∧ (n ∉ argument_free_tools →
     CallTool cfg n None st
     = (inl (McpError InternalError
               ("Tool execution failed: " +:+ type_error "args")), st)).
Proof.
  intros Hcase.
  pose proof (assoc_elem_of _ _ _ Hcase) as Hentry.
  pose proof (proj1 (Forall_forall _ _) cases_argument_policy _ Hentry)
    as Hpolicy.
  unfold argument_policy in Hpolicy. simpl in Hpolicy.
  split.
  - intros Hfree. by rewrite (bool_decide_eq_true_2 _ Hfree) in Hpolicy.
  - intros Hbound. rewrite (bool_decide_eq_false_2 _ Hbound) in Hpolicy.
    rewrite (CallTool_runs_handler cfg n _ None st Hcase).
    simpl. unfold proxy. rewrite Hpolicy. reflexivity.
Qed.

End DispatcherOutcomes.

Section AuthTools.
Context `{Backend} `{JsRuntime} (cfg : Config).

Lemma server_info_case : lookup_handler "baasix_server_info" = Some ServerInfo.
Proof. reflexivity. Qed.

(** X15.  In email/password mode [baasix_refresh_auth] never fails and
    always makes exactly one login exchange, also when the cached token is
    still valid.  When the backend accepts it, the cache holds the new token
    with a fresh one-hour expiry; when it refuses, both cache variables are
    left cleared (the old token is gone) and the body reports
    [success: false] with the authentication error. *)
Theorem refresh_auth_forces_a_login (args : option Args) (st : State) :
  email_password_mode cfg →
  ∃ (body : string) (st' : State),
    CallTool cfg "baasix_refresh_auth" args st = (inr (text_result body), st')
    ∧ calls st' = calls st ++ [login_call cfg]
    ∧ (∀ (token : option string) (w' : World) (t : N) (w'' : World),
         axios_post_login (login_url cfg) (BAASIX_EMAIL cfg)
           (BAASIX_PASSWORD cfg) (world st) = (inr token, w') →
         Date_now w' = (t, w'') →
         authToken st' = token ∧ authExpiry st' = Some (t + 3600000)%N)
    ∧ (∀ (rej : Rejection) (w' : World),
         axios_post_login (login_url cfg) (BAASIX_EMAIL cfg)
           (BAASIX_PASSWORD cfg) (world st) = (inl rej, w') →
         authToken st' = None ∧ authExpiry st' = None
         ∧ body = JSON_stringify_pretty (VObj [
             ("success", VBool false);
             ("error", VStr ("Authentication failed: "
                             +:+ describe (reject rej)));
             ("user", configured_user cfg)
           ])).
Proof.
  intros (Hexplicit & Hemail & Hpassword).
  rewrite (CallTool_runs_handler cfg _ _ args st refresh_auth_case).
  simpl. unfold handleRefreshAuth. rewrite Hexplicit.
  unfold mbind at 1, M_bind at 1, write_authToken at 1.
  unfold mbind at 1, M_bind at 1, write_authExpiry at 1.
  cbn [authToken authExpiry world calls].
  set (s := {| authToken := None; authExpiry := None;
               world := world st; calls := calls st |}).
  assert (cache_miss s s) as Hmiss by (apply miss_unset; reflexivity).
  unfold try_catch. unfold mbind at 1, M_bind at 1.
  destruct (axios_post_login (login_url cfg) (BAASIX_EMAIL cfg)
              (BAASIX_PASSWORD cfg) (world st)) as [[rej | token] w']
    eqn:Hlogin.
  - rewrite (getAuthToken_login_rejected cfg s s rej w') by assumption.
    eexists _, _. split; [reflexivity |]. split; [reflexivity |].
    split; [intros ? ? ? ? [=] |].
    intros rej0 w0 Hsame. simplify_eq.
    split; [reflexivity | split; reflexivity].
  - destruct (Date_now w') as [t w''] eqn:Hnow.
    rewrite (getAuthToken_login_ok cfg s s token t w' w'') by assumption.
    unfold toISOString. run_monad.
    repeat case_match; simplify_eq;
      (eexists _, _; split; [reflexivity |]; split; [reflexivity |];
       split; [intros token0 w0 t0 w1 Hsame Hclock; simplify_eq;
               rewrite Hnow in Hclock; simplify_eq; split; reflexivity
              | intros ? ? [=]]).
Qed.

(** X16.  [baasix_server_info] never fails.  When the proxied request to
    [/utils/info] fails, for whatever reason, the body says only
    "Could not fetch Baasix server info" next to the description of this
    server: the upstream message is dropped.  When it succeeds, the
    backend's data is embedded unchanged. *)
Theorem server_info_never_fails (args : option Args) (st : State) :
  ∃ (body : string) (st' : State),
    CallTool cfg "baasix_server_info" args st = (inr (text_result body), st')
    ∧ (∀ (e : Exn) (st1 : State),
         baasixRequest cfg "/utils/info" no_request_options st = (inl e, st1) →
         ∃ block, mcp_server_block cfg st1 = (inr block, st')
           ∧ body = JSON_stringify_pretty (VObj [
               ("error", VStr "Could not fetch Baasix server info");
               ("mcp_server", block)
             ]))
    ∧ (∀ (info : JsValue) (st1 : State),
         baasixRequest cfg "/utils/info" no_request_options st = (inr info, st1) →
         ∃ block, mcp_server_block cfg st1 = (inr block, st')
           ∧ body = JSON_stringify_pretty (VObj [
               ("baasix_server", info); ("mcp_server", block)
             ])).
Proof.
  rewrite (CallTool_runs_handler cfg _ _ args st server_info_case).
  simpl. unfold handleServerInfo, try_catch.
  unfold mbind at 1, M_bind at 1.
  destruct (baasixRequest cfg "/utils/info" no_request_options st)
    as [[e | info] st1].
  - unfold mbind, M_bind.
    destruct (mcp_server_block cfg st1) as [[e' | block] st2] eqn:Hblock.
    + exfalso. revert Hblock. unfold mcp_server_block. run_monad.
      destruct (Date_now (world st1)); discriminate.
    + eexists _, _. split; [reflexivity |].
      split; [intros ? ? [= <- <-]; eauto | intros ? ? [=]].
  - unfold mbind at 1, M_bind at 1.
    destruct (mcp_server_block cfg st1) as [[e' | block] st2] eqn:Hblock.
    + exfalso. revert Hblock. unfold mcp_server_block. run_monad.
      destruct (Date_now (world st1)); discriminate.
    + eexists _, _. split; [reflexivity |].
      split; [intros ? ? [=] | intros ? ? [= <- <-]; eauto].
Qed.

End AuthTools.

(** ** The requests the handlers build *)

Lemma assoc_app {A : Type} (key : string) (l1 l2 : list (string * A)) :
  assoc key (l1 ++ l2)
  = match assoc key l1 with Some v => Some v | None => assoc key l2 end.
Proof.
  induction l1 as [| [k v] l1 IH]; simpl; [reflexivity |].
  by destruct (String.eqb k key).
Qed.

Lemma assoc_pick (a : Args) (keys : list string) (key : string) :
  assoc key (pick a keys)
  = if bool_decide (key ∈ keys) then Some (prop a key) else None.
Proof.
  induction keys as [| k keys IH]; simpl; [reflexivity |].
  destruct (String.eqb_spec k key) as [-> | Hne].
  - by rewrite (bool_decide_eq_true_2 (key ∈ key :: keys)) by left.
  - rewrite IH.
    assert (bool_decide (key ∈ k :: keys) = bool_decide (key ∈ keys)) as ->;
      [| reflexivity].
    apply bool_decide_ext. rewrite elem_of_cons.
    split; [intros [-> | Hin]; [congruence | exact Hin] | by right].
Qed.

Lemma assoc_rest_props (a : Args) (named : list string) (key : string) :
  key ∉ named → assoc key (rest_props a named) = assoc key a.
Proof.
  intros Hout. unfold rest_props, Args.
  induction a as [| [k v] a IH]; [reflexivity |].
  rewrite filter_cons. simpl.
  destruct (decide (k ∉ named)) as [Hkeep | Hdrop]; simpl.
  - by rewrite IH.
  - destruct (String.eqb_spec k key) as [-> | Hne]; [| exact IH].
    by destruct Hdrop.
Qed.

Section Forwarding.
Context `{JsRuntime}.

(** X17.  Paging.  When [page] and [limit] are omitted,
    [baasix_list_items] asks for [page=1] and [limit=10] after its filters.
    A [page] that is [null] is not defaulted: the four paged list tools and
    [baasix_list_schemas] throw the TypeError of calling [toString] on it,
    so no request is built. *)
Theorem null_page_is_not_defaulted (a : Args) :
  (prop a "page" = VUndefined →
   prop a "limit" = VUndefined →
   handleListItems_request (Some a)
   = inr (fetch (query ("/items/" +:+ js_String (prop a "collection"))
            (append_if (js_truthy (prop a "filter")) "filter"
               (JSON_stringify (prop a "filter"))
             ++ append_if (js_truthy (prop a "sort")) "sort"
                  (js_String (prop a "sort"))
             ++ [("page", js_String (VNum 1));
                 ("limit", js_String (VNum 10))]))))
  ∧ (prop a "page" = VNull →
     Forall (λ request : option Args → string + Request,
               request (Some a) = inl (type_error "page.toString"))
       [handleListItems_request; handleListFiles_request;
        handleListPermissions_request; handleListNotifications_request;
        handleListSchemas_request]).
Proof.
  split.
  - intros Hpage Hlimit.
    unfold handleListItems_request, paged, prop_default, destructure,
      mbind, sum_bind, mret, sum_ret. cbv beta iota.
    rewrite Hpage, Hlimit. simpl. by rewrite <- app_assoc.
  - intros Hpage.
    repeat (apply Forall_cons; split;
            [unfold handleListItems_request, handleListFiles_request,
               handleListPermissions_request, handleListNotifications_request,
               handleListSchemas_request, paged, prop_default, destructure,
               mbind, sum_bind, mret, sum_ret;
             cbv beta iota; rewrite Hpage; reflexivity |]).
    apply Forall_nil. exact I.
Qed.

(** X18.  [baasix_register_user] forwards every property of its arguments
    in the request body: the eight named ones (as [undefined] when omitted)
    and any other property under its own name, unchanged.  [baasix_login]
    forwards its four named properties only: any other property is
    dropped. *)
Theorem register_forwards_every_property (a : Args) :
  ∃ body body' : list (string * JsValue),
    handleRegisterUser_request (Some a)
    = inr (send "POST" "/auth/register" (VObj body))
    ∧ handleLogin_request (Some a)
      = inr (send "POST" "/auth/login" (VObj body'))
    ∧ ∀ key : string,
        (key ∈ register_fields → assoc key body = Some (prop a key))
        ∧ (key ∉ register_fields → assoc key body = assoc key a)
        ∧ (key ∈ ["email"; "password"; "tenant_Id"; "authMode"] →
           assoc key body' = Some (prop a key))
        ∧ (key ∉ ["email"; "password"; "tenant_Id"; "authMode"] →
           assoc key body' = None).
Proof.
  eexists _, _. split; [reflexivity |]. split; [reflexivity |].
  intros key. rewrite assoc_app, !assoc_pick. repeat split.
  - intros Hin. by rewrite (bool_decide_eq_true_2 _ Hin).
  - intros Hout. rewrite (bool_decide_eq_false_2 _ Hout).
    by apply assoc_rest_props.
  - intros Hin. by rewrite (bool_decide_eq_true_2 _ Hin).
  - intros Hout. by rewrite (bool_decide_eq_false_2 _ Hout).
Qed.

End Forwarding.

Section StatusLogsIn.
Context `{Backend} `{JsRuntime} (cfg : Config).

(** X19.  [baasix_auth_status] is not a passive check.  In email/password
    mode, when no valid token is cached, it makes one login exchange;
    when the backend accepts it, the token is cached with a one-hour expiry
    as a side effect of asking for the status.  It never makes a proxied
    request. *)
Theorem auth_status_logs_in (args : option Args) (st st1 : State) :
  email_password_mode cfg →
  cache_miss st st1 →
  ∃ (body : string) (st' : State),
    CallTool cfg "baasix_auth_status" args st = (inr (text_result body), st')
    ∧ calls st' = calls st ++ [login_call cfg]
    ∧ ∀ (token : option string) (w' : World) (t : N) (w'' : World),
        axios_post_login (login_url cfg) (BAASIX_EMAIL cfg)
          (BAASIX_PASSWORD cfg) (world st1) = (inr token, w') →
        Date_now w' = (t, w'') →
        authToken st' = token ∧ authExpiry st' = Some (t + 3600000)%N.
Proof.
  intros (Hexplicit & Hemail & Hpassword) Hmiss.
  assert (calls st1 = calls st) as Hcalls by (destruct Hmiss; reflexivity).
  rewrite (CallTool_runs_handler cfg _ _ args st auth_status_case).
  simpl. unfold handleAuthStatus, try_catch.
  unfold mbind at 1, M_bind at 1.
  destruct (axios_post_login (login_url cfg) (BAASIX_EMAIL cfg)
              (BAASIX_PASSWORD cfg) (world st1)) as [[rej | token] w']
    eqn:Hlogin.
  - rewrite (getAuthToken_login_rejected cfg st st1 rej w') by assumption.
    eexists _, _. split; [reflexivity |].
    split; [simpl; by rewrite Hcalls | intros ? ? ? ? [=]].
  - destruct (Date_now w') as [t w''] eqn:Hnow.
    rewrite (getAuthToken_login_ok cfg st st1 token t w' w'') by assumption.
    unfold cached_token_valid, toISOString. run_monad.
    repeat case_match; simplify_eq;
      (eexists _, _; split; [reflexivity |];
       split; [simpl; by rewrite Hcalls |];
       intros token0 w0 t0 w1 Hsame Hclock; simplify_eq;
       rewrite Hnow in Hclock; simplify_eq; split; reflexivity).
Qed.

End StatusLogsIn.

(** ** Concrete runs for the further properties *)

Module MoreChecks.
Import Script Scenario.

Ltac not_a_member Hin :=
  apply (bool_decide_pack _) in Hin; vm_compute in Hin; destruct Hin.

Lemma process_environment_wins_witness :
  ConfigJs.loadEnvironmentConfig ConfigJs.no_options
    {| ConfigJs.env_file_exists := true;
       ConfigJs.dotenv_parsed :=
         Some (<["BAASIX_URL" := "http://from-file:8056"]> ∅);
       ConfigJs.process_env :=
         <["BAASIX_URL" := "https://from-env.example"]> ∅ |}
    !! "BAASIX_URL" = Some "https://from-env.example".
Proof.
  apply (process_environment_wins ConfigJs.no_options
           {| ConfigJs.env_file_exists := true;
              ConfigJs.dotenv_parsed :=
                Some (<["BAASIX_URL" := "http://from-file:8056"]> ∅);
              ConfigJs.process_env :=
                <["BAASIX_URL" := "https://from-env.example"]> ∅ |}
           "BAASIX_URL" "https://from-env.example").
  - reflexivity.
  - left.
  - vm_compute. reflexivity.
  - reflexivity.
Defined.

Lemma env_file_overrides_defaults_witness :
  ConfigJs.loadEnvironmentConfig ConfigJs.no_options blank_credentials
    !! "BAASIX_EMAIL" = Some EmptyString.
Proof.
  apply (env_file_overrides_defaults ConfigJs.no_options blank_credentials
           (<["BAASIX_EMAIL" := EmptyString]>
              (<["BAASIX_PASSWORD" := EmptyString]> ∅))
           "BAASIX_EMAIL" EmptyString).
  - reflexivity.
  - reflexivity.
  - vm_compute. reflexivity.
  - right. right. vm_compute. reflexivity.
Defined.

Lemma empty_environment_value_is_ignored_witness :
  let h :=
    {| ConfigJs.env_file_exists := false;
       ConfigJs.dotenv_parsed := None;
       ConfigJs.process_env :=
         <["BAASIX_EMAIL" := EmptyString]> (<["NODE_ENV" := "production"]> ∅)
    |} in
  let quiet :=
    {| ConfigJs.envPath := None; ConfigJs.useDefaults := true;
       ConfigJs.processEnv := false |} in
  ConfigJs.loadEnvironmentConfig ConfigJs.no_options h !! "BAASIX_EMAIL"
  = ConfigJs.loadEnvironmentConfig quiet h !! "BAASIX_EMAIL"
  ∧ ConfigJs.loadEnvironmentConfig ConfigJs.no_options h !! "NODE_ENV"
    = ConfigJs.loadEnvironmentConfig quiet h !! "NODE_ENV".
Proof.
  intros h quiet. split.
  - apply (empty_environment_value_is_ignored ConfigJs.no_options h
             "BAASIX_EMAIL").
    right. vm_compute. reflexivity.
  - apply (empty_environment_value_is_ignored ConfigJs.no_options h
             "NODE_ENV").
    left. intros Hin. not_a_member Hin.
Defined.

Lemma validateConfig_report_shape_witness :
  "Either BAASIX_AUTH_TOKEN or both BAASIX_EMAIL and BAASIX_PASSWORD must be provided"
  ∉ ConfigJs.errors
      (ConfigJs.validateConfig looks_like_url
         (<["BAASIX_AUTH_TOKEN" := "secret"]> ConfigJs.DEFAULT_CONFIG)).
Proof.
  apply (proj2 (proj2 (proj2
           (validateConfig_report_shape looks_like_url
              (<["BAASIX_AUTH_TOKEN" := "secret"]> ConfigJs.DEFAULT_CONFIG))))).
  vm_compute. discriminate.
Defined.

Lemma createConfig_without_env_file_witness :
  ConfigJs.createConfig looks_like_url ConfigJs.no_options only_url
  = inr (ConfigJs.loadEnvironmentConfig ConfigJs.no_options only_url).
Proof.
  apply (createConfig_without_env_file looks_like_url only_url).
  - reflexivity.
  - intros u Hurl. vm_compute in Hurl. injection Hurl as <-. reflexivity.
Defined.

Lemma getAuthToken_keeps_cache_coherent_witness :
  authToken (getAuthToken login_cfg (fresh healthy)).2 = Some "t1".
Proof.
  apply (proj1 (getAuthToken_keeps_cache_coherent login_cfg (fresh healthy)
                  eq_refl)).
  reflexivity.
Defined.

Lemma baasixRequest_failure_kinds_witness :
  (getAuthToken bare_cfg (fresh healthy)
     = (inl NoAuthenticationMethod, fresh healthy)
   ∧ is_AuthenticationError NoAuthenticationMethod
   ∧ api_count (fresh healthy) = api_count (fresh healthy))
  ∨ ∃ upstream, NoAuthenticationMethod = ApiError upstream.
Proof.
  apply (baasixRequest_failure_kinds bare_cfg "/items/products"
           no_request_options (fresh healthy) (fresh healthy)
           NoAuthenticationMethod).
  reflexivity.
Defined.

Lemma request_config_headers_witness :
  headers (request_config login_cfg (Some "t1") no_request_options)
    !! "Authorization" = Some "Bearer t1".
Proof.
  apply (proj1 (proj2 (request_config_headers login_cfg (Some "t1")
                         no_request_options))).
  vm_compute. reflexivity.
Defined.

Lemma retry_replaces_authorization_only_witness :
  headers (request_config login_cfg (Some "t1")
             {| opt_method := None; opt_data := VUndefined;
                opt_headers := <["Authorization" := "Basic abc"]> ∅ |})
    !! "Authorization" = Some "Basic abc".
Proof.
  apply (proj2 (proj2 (proj2 (proj2 (proj2
           (retry_replaces_authorization_only login_cfg (Some "t1") (Some "t2")
              {| opt_method := None; opt_data := VUndefined;
                 opt_headers := <["Authorization" := "Basic abc"]> ∅ |})))))).
  vm_compute. reflexivity.
Defined.

Lemma CallTool_failure_codes_witness :
  (registered "baasix_drop_everything" = false
   ∧ McpError MethodNotFound "Unknown tool: baasix_drop_everything"
     = McpError MethodNotFound ("Unknown tool: " +:+ "baasix_drop_everything")
   ∧ fresh healthy = fresh healthy)
  ∨ (registered "baasix_drop_everything" = true
     ∧ ∃ message,
         McpError MethodNotFound "Unknown tool: baasix_drop_everything"
         = McpError InternalError ("Tool execution failed: " +:+ message)).
Proof.
  apply (CallTool_failure_codes login_cfg "baasix_drop_everything" None
           (fresh healthy) (fresh healthy)).
  vm_compute. reflexivity.
Defined.

Lemma CallTool_result_shape_witness :
  ∃ body, text_result (to_json (VArr [])) = text_result body.
Proof.
  destruct (CallTool_result_shape login_cfg "baasix_list_items" products
              (fresh healthy)
              (CallTool login_cfg "baasix_list_items" products
                 (fresh healthy)).2
              (text_result (to_json (VArr [])))) as [Hbody _].
  - vm_compute. reflexivity.
  - exact Hbody.
Defined.

Lemma invocation_without_arguments_witness :
  CallTool login_cfg "baasix_get_schema" None (fresh healthy)
  = (inl (McpError InternalError
            ("Tool execution failed: " +:+ type_error "args")), fresh healthy).
Proof.
  apply (proj2 (invocation_without_arguments login_cfg "baasix_get_schema"
                  handleGetSchema_request (fresh healthy) eq_refl)).
  intros Hin. not_a_member Hin.
Defined.

Lemma refresh_auth_forces_a_login_witness :
  ∃ body st',
    CallTool login_cfg "baasix_refresh_auth" None (fresh healthy)
    = (inr (text_result body), st')
    ∧ calls st' = calls (fresh healthy) ++ [login_call login_cfg].
Proof.
  destruct (refresh_auth_forces_a_login login_cfg None (fresh healthy)
              (conj eq_refl (conj eq_refl eq_refl)))
    as (body & st' & Hrun & Hcalls & _).
  by exists body, st'.
Defined.

Lemma server_info_never_fails_witness :
  ∃ body st',
    CallTool bare_cfg "baasix_server_info" None (fresh healthy)
    = (inr (text_result body), st').
Proof.
  destruct (server_info_never_fails bare_cfg None (fresh healthy))
    as (body & st' & Hrun & _).
  by exists body, st'.
Defined.

Lemma null_page_is_not_defaulted_witness :
  handleListItems_request
    (Some [("collection", VStr "products"); ("page", VNull)])
  = inl (type_error "page.toString").
Proof.
  apply (Forall_inv
           (proj2 (null_page_is_not_defaulted
                     [("collection", VStr "products"); ("page", VNull)])
              eq_refl)).
Defined.

Lemma register_forwards_every_property_witness :
  ∃ body,
    handleRegisterUser_request
      (Some [("email", VStr "a@b.com"); ("plan", VStr "pro")])
    = inr (send "POST" "/auth/register" (VObj body))
    ∧ assoc "plan" body = Some (VStr "pro").
Proof.
  destruct (register_forwards_every_property
              [("email", VStr "a@b.com"); ("plan", VStr "pro")])
    as (body & body' & Hregister & _ & Hkeys).
  exists body. split; [exact Hregister |].
  rewrite (proj1 (proj2 (Hkeys "plan"))); [reflexivity |].
  intros Hin. not_a_member Hin.
Defined.

Lemma auth_status_logs_in_witness :
  ∃ body st',
    CallTool login_cfg "baasix_auth_status" None (fresh healthy)
    = (inr (text_result body), st')
    ∧ calls st' = calls (fresh healthy) ++ [login_call login_cfg].
Proof.
  destruct (auth_status_logs_in login_cfg None (fresh healthy) (fresh healthy)
              (conj eq_refl (conj eq_refl eq_refl))
              (miss_unset (fresh healthy) eq_refl))
    as (body & st' & Hrun & Hcalls & _).
  by exists body, st'.
Defined.

End MoreChecks.
